(** * boofuzz command line: option resolution of [fuzz] (src/boofuzz/cli.py)

    A shallow embedding of the [fuzz] group callback.  The callback is one
    straight-line Python function that reads its keyword arguments, touches
    a module-level global ([debugger_thread_qemu.QEMU_PATH]), writes to
    stderr, may leave through [sys.exit], opens a file and constructs the
    collaborator objects handed to [sessions.Session].  It is embedded as a
    computation in a small state-and-exit monad, block by block in source
    order. *)

From Stdlib Require Import ZArith Ascii String Floats.SpecFloat.
From stdpp Require Import gmap strings list fin_maps pretty.

Local Open Scope Z_scope.
Local Open Scope string_scope.
Local Open Scope list_scope.

(** ** Python strings

    [str] values are modelled as [string]; the three [str] operations the
    callback uses are the membership test with a one-character needle,
    [split] with a one-character separator, and truthiness. *)

Module PyStr.

(** [c in s] for a one-character string [c]. *)
Fixpoint contains (c : ascii) (s : string) : bool :=
  match s with
  | EmptyString => false
  | String x s' => if Ascii.eqb x c then true else contains c s'
  end.

(** [s.split(c)] for a one-character separator: never empty, one more
    part than there are separators. *)
Fixpoint split (c : ascii) (s : string) : list string :=
  match s with
  | EmptyString => [EmptyString]
  | String x s' =>
      if Ascii.eqb x c then EmptyString :: split c s'
      else match split c s' with
           | [] => [String x EmptyString]
           | part :: parts => String x part :: parts
           end
  end.

(** [s.count(c)]. *)
Fixpoint count (c : ascii) (s : string) : nat :=
  match s with
  | EmptyString => O
  | String x s' => if Ascii.eqb x c then S (count c s') else count c s'
  end.

(** [bool(s)]: a string is falsy exactly when it is empty. *)
Definition truthy (s : string) : bool :=
  match s with
  | EmptyString => false
  | String _ _ => true
  end.

End PyStr.

(** The separator of the index specifier, ["-"]. *)
Definition dash : ascii := "-"%char.

(** ** Exceptions and results *)

Inductive exn : Type :=
| ValueError_int (literal : string)      (* int(): invalid literal *)
| ValueError_too_many_values             (* a, b = xs  with len(xs) > 2 *)
| ValueError_not_enough_values           (* a, b = xs  with len(xs) < 2 *)
| ValueError_shlex (command : string)    (* shlex.split: unbalanced quoting *)
| OSError_open (path : string)           (* open() failed *)
| AttributeError_None (attribute : string)  (* None.attribute *)
| Error_parse_target (target_name : string).

Inductive result (A : Type) : Type :=
| Ok (a : A)
| Err (e : exn).
Arguments Ok {A} a.
Arguments Err {A} e.

Definition rbind {A B} (r : result A) (k : A -> result B) : result B :=
  match r with
  | Ok a => k a
  | Err e => Err e
  end.

(** ** What the interpreter and the absent collaborators provide

    [int], [shlex.split] and [open] belong to the Python runtime, and
    [helpers.parse_target] to a module of the package that the callback only
    imports.  The callback is embedded over any implementation of them; a
    [None] answer stands for the call raising. *)

Class Runtime : Type := {
  py_int : string -> option Z;
  shlex_split : string -> option (list string);
  parse_target : string -> option (string * Z);
  os_open : string -> string -> option nat
}.

Section RangeParser.

Context `{Runtime}.

Definition int (s : string) : result Z :=
  match py_int s with
  | Some n => Ok n
  | None => Err (ValueError_int s)
  end.

(** [start, end = parts] *)
Definition unpack2 (parts : list string) : result (string * string) :=
  match parts with
  | [a; b] => Ok (a, b)
  | _ :: _ :: _ :: _ => Err ValueError_too_many_values
  | _ => Err ValueError_not_enough_values
  end.

(** cli.py lines 171-185: the resolution of [test_case_index] into
    [(start, end)], where [end = None] means unbounded. *)
Definition parse_test_case_index (test_case_index : option string)
  : result (Z * option Z) :=
  match test_case_index with
  | None => Ok (1, None)
  | Some idx =>
      if PyStr.contains dash idx then
        rbind (unpack2 (PyStr.split dash idx)) (fun '(start, end_) =>
        rbind (if negb (PyStr.truthy start) then Ok 1 else int start)
              (fun start =>
        rbind (if negb (PyStr.truthy end_) then Ok None
               else rbind (int end_) (fun e => Ok (Some e)))
              (fun end_ =>
        Ok (start, end_))))
      else
        rbind (int idx) (fun n => Ok (n, Some n))
  end.

End RangeParser.

(** ** The callback's parameters and the objects it builds *)

(** The keyword arguments click passes to [fuzz], after click applied its
    declared types and defaults. *)
Record fuzz_args : Type := {
  target : string;
  test_case_index : option string;
  test_case_name : option string;
  csv_out : option string;
  sleep_between_cases : spec_float;
  procmon_host : option string;
  procmon_port : Z;
  stdout : string;
  tui : bool;
  text_dump : bool;
  feature_check : bool;
  target_cmd : option string;
  keep_web : bool;
  combinatorial : bool;
  record_passes : Z;
  qemu : bool;
  qemu_path : option string;
  web_port : Z;
  restart_interval : option Z;
  target_start_wait : spec_float
}.

Inductive debugger_class : Type :=
| DebuggerThreadSimple
| DebuggerThreadQemu.

(** Values stored in the [procmon_options] dict. *)
Inductive optval : Type :=
| OptCommands (argvs : list (list string))
| OptFloat (x : spec_float)
| OptBool (b : bool).

(** Modelled from the spec: the monitor classes [ProcessMonitorLocal] and
    [ProcessMonitor] are not part of this slice.  A handle is either local
    (built from a crash-artifact filename, a process-name and PID filter, a
    debugger backend and a level) or remote (bound to host and port), and
    both take the options pushed onto them. *)
Inductive monitor_kind : Type :=
| ProcessMonitorLocal (crash_filename : string) (proc_name : option string)
    (pid_to_ignore : option Z) (debugger : debugger_class) (level : Z)
| ProcessMonitor (host : string) (port : Z).

Record monitor : Type := {
  kind : monitor_kind;
  options : gmap string optval
}.

(** Modelled from the spec: the uniform "apply options" operation of a
    monitor handle; the keyword arguments given override what was set. *)
Definition set_options (kwargs : gmap string optval) (m : monitor) : monitor :=
  {| kind := kind m; options := kwargs ∪ options m |}.

Inductive fuzz_logger : Type :=
| FuzzLoggerText
| FuzzLoggerCurses
| FuzzLoggerCsv (file_handle : nat).

Inductive connection : Type :=
| TCPSocketConnection (host : string) (port : Z).

(** Modelled from the spec: [sessions.Target] and [sessions.Session] are
    not part of this slice; they are the records of the keyword arguments
    the callback constructs them with. *)
Module sessions.
Record Target : Type := {
  connection : connection;
  monitors : list monitor
}.
Record Session : Type := {
  target : Target;
  fuzz_loggers : list fuzz_logger;
  sleep_time : spec_float;
  index_start : Z;
  index_end : option Z;
  keep_web_open : bool;
  fuzz_db_keep_only_n_pass_cases : Z;
  web_port : Z;
  restart_interval : option Z
}.
End sessions.

(** What [fuzzcallback] does once the sub-commands have run. *)
Inductive session_call : Type :=
| Call_feature_check
| Call_fuzz (name : option string) (max_depth : option Z) (qemu : bool).

(** ** Effects

    The observable effects of the callback, in program order. *)
Inductive event : Type :=
| New_ProcessMonitorLocal (m : monitor_kind)
| New_FuzzLoggerText
| New_FuzzLoggerCurses
| Open_file (path mode : string)
| New_FuzzLoggerCsv (file_handle : nat)
| New_ProcessMonitor (host : string) (port : Z)
| Call_set_options (kwargs : gmap string optval)
| New_TCPSocketConnection (host : string) (port : Z)
| New_Session (s : sessions.Session)
| Set_ctx_obj (s : sessions.Session)
| Register_resultcallback (c : session_call).

Record world : Type := {
  QEMU_PATH : option string;   (* debugger_thread_qemu.QEMU_PATH *)
  stderr : list string;        (* lines printed to sys.stderr *)
  trace : list event
}.

Inductive outcome (A : Type) : Type :=
| Returns (a : A)
| Exits (code : Z)               (* sys.exit(code) *)
| Raises (e : exn).
Arguments Returns {A} a.
Arguments Exits {A} code.
Arguments Raises {A} e.

Definition M (A : Type) : Type := world -> outcome A * world.

#[global] Instance M_ret : MRet M := λ A a w, (Returns a, w).
#[global] Instance M_bind : MBind M := λ A B k m w,
  match m w with
  | (Returns a, w') => k a w'
  | (Exits c, w') => (Exits c, w')
  | (Raises e, w') => (Raises e, w')
  end.

Definition sys_exit {A} (code : Z) : M A := λ w, (Exits code, w).
Definition raise {A} (e : exn) : M A := λ w, (Raises e, w).
Definition print_stderr (line : string) : M unit := λ w,
  (Returns tt,
   {| QEMU_PATH := QEMU_PATH w; stderr := stderr w ++ [line]; trace := trace w |}).
Definition emit (e : event) : M unit := λ w,
  (Returns tt,
   {| QEMU_PATH := QEMU_PATH w; stderr := stderr w; trace := trace w ++ [e] |}).
Definition get_QEMU_PATH : M (option string) := λ w, (Returns (QEMU_PATH w), w).
Definition set_QEMU_PATH (p : option string) : M unit := λ w,
  (Returns tt, {| QEMU_PATH := p; stderr := stderr w; trace := trace w |}).
Definition lift {A} (r : result A) : M A :=
  match r with
  | Ok a => mret a
  | Err e => raise e
  end.

(** Truthiness of [None]-or-string and of a float. *)
Definition truthy_opt_str (o : option string) : bool :=
  match o with
  | Some s => PyStr.truthy s
  | None => false
  end.

Definition truthy_float (x : spec_float) : bool :=
  match x with
  | S754_zero _ => false
  | _ => true
  end.

(** ** The callback *)

Definition msg_qemu_windows : string :=
  "error: --qemu requires System V interface and is not currently supported on Windows".
Definition msg_qemu_not_found : string :=
  "afl-qemu-trace not found. Is it available in PATH?".

(** The local variables of [fuzz] when it reaches its end.  The Python
    function returns [None]; the frame is what the claims speak about. *)
Record frame : Type := {
  debugger : debugger_class;
  local_procmon : option monitor;
  fuzz_loggers : list fuzz_logger;
  procmon_options : gmap string optval;
  monitors : list monitor;
  max_depth : option Z;
  start : Z;
  end_ : option Z;
  session : sessions.Session
}.

Section Fuzz.

Context `{Runtime}.

(** [platform.system()] *)
Variable platform_system : string.

(** cli.py lines 110-123 *)
Definition select_debugger (qemu : bool) (qemu_path : option string)
  : M debugger_class :=
  if qemu then
    (if String.eqb platform_system "Windows" then
       print_stderr msg_qemu_windows;; sys_exit 1
     else mret tt);;
    match qemu_path with
    | Some p => set_QEMU_PATH (Some p)
    | None => mret tt
    end;;
    path ← get_QEMU_PATH;
    (if negb (truthy_opt_str path) then
       print_stderr msg_qemu_not_found;; sys_exit 1
     else mret tt);;
    mret DebuggerThreadQemu
  else
    mret DebuggerThreadSimple.

(** cli.py lines 124-132 *)
Definition make_local_procmon (target_cmd procmon_host : option string)
    (debugger : debugger_class) : M (option monitor) :=
  match target_cmd, procmon_host with
  | Some _, None =>
      let k := ProcessMonitorLocal "boofuzz-crash-bin" None None debugger 1 in
      emit (New_ProcessMonitorLocal k);;
      mret (Some {| kind := k; options := ∅ |})
  | _, _ => mret None
  end.

(** cli.py lines 134-141 *)
Definition assemble_fuzz_loggers (text_dump tui : bool)
    (csv_out : option string) : M (list fuzz_logger) :=
  let fuzz_loggers := [] in
  fuzz_loggers ←
    (if text_dump then
       emit New_FuzzLoggerText;; mret (fuzz_loggers ++ [FuzzLoggerText])
     else if tui then
       emit New_FuzzLoggerCurses;; mret (fuzz_loggers ++ [FuzzLoggerCurses])
     else mret fuzz_loggers);
  match csv_out with
  | Some _ =>
      emit (Open_file "boofuzz.csv" "wb");;
      match os_open "boofuzz.csv" "wb" with
      | Some f =>
          emit (New_FuzzLoggerCsv f);;
          mret (fuzz_loggers ++ [FuzzLoggerCsv f])
      | None => raise (OSError_open "boofuzz.csv")
      end
  | None => mret fuzz_loggers
  end.

(** cli.py lines 143-153 *)
Definition build_procmon_options (target_cmd : option string)
    (target_start_wait : spec_float) (stdout : string)
  : result (gmap string optval) :=
  let procmon_options : gmap string optval := ∅ in
  rbind (match target_cmd with
         | Some cmd =>
             match shlex_split cmd with
             | Some argv =>
                 Ok (<["start_commands" := OptCommands [argv]]> procmon_options)
             | None => Err (ValueError_shlex cmd)
             end
         | None => Ok procmon_options
         end) (fun procmon_options =>
  let procmon_options :=
    if truthy_float target_start_wait
    then <["startup_wait" := OptFloat target_start_wait]> procmon_options
    else procmon_options in
  let procmon_options :=
    if String.eqb stdout "CAPTURE"
    then <["capture_output" := OptBool true]> procmon_options
    else if String.eqb stdout "HIDE"
    then <["hide_output" := OptBool true]> procmon_options
    else if String.eqb stdout "MIRROR"
    then procmon_options
    else procmon_options in
  Ok procmon_options).

(** cli.py lines 155-164 *)
Definition attach_monitors (local_procmon : option monitor)
    (procmon_host : option string) (procmon_port : Z)
    (procmon_options : gmap string optval) : M (list monitor) :=
  if bool_decide (local_procmon ≠ None) || bool_decide (procmon_host ≠ None) then
    procmon ←
      match procmon_host with
      | Some host =>
          emit (New_ProcessMonitor host procmon_port);;
          mret (Some {| kind := ProcessMonitor host procmon_port; options := ∅ |})
      | None => mret local_procmon
      end;
    match procmon with
    | Some procmon =>
        emit (Call_set_options procmon_options);;
        mret [set_options procmon_options procmon]
    | None => raise (AttributeError_None "set_options")
    end
  else
    mret [].

(** cli.py lines 166-169 *)
Definition resolve_max_depth (combinatorial : bool) : option Z :=
  if combinatorial then None else Some 1.

(** cli.py lines 87-212 *)
Definition fuzz (a : fuzz_args) : M frame :=
  debugger ← select_debugger (qemu a) (qemu_path a);
  local_procmon ← make_local_procmon (target_cmd a) (procmon_host a) debugger;
  fuzz_loggers ← assemble_fuzz_loggers (text_dump a) (tui a) (csv_out a);
  procmon_options ←
    lift (build_procmon_options (target_cmd a) (target_start_wait a) (stdout a));
  monitors ←
    attach_monitors local_procmon (procmon_host a) (procmon_port a) procmon_options;
  let max_depth := resolve_max_depth (combinatorial a) in
  '(start, end_) ← lift (parse_test_case_index (test_case_index a));
  '(host, port) ←
    lift (match parse_target (target a) with
          | Some hp => Ok hp
          | None => Err (Error_parse_target (target a))
          end);
  let connection := TCPSocketConnection host port in
  emit (New_TCPSocketConnection host port);;
  let session :=
    {| sessions.target :=
         {| sessions.connection := connection; sessions.monitors := monitors |};
       sessions.fuzz_loggers := fuzz_loggers;
       sessions.sleep_time := sleep_between_cases a;
       sessions.index_start := start;
       sessions.index_end := end_;
       sessions.keep_web_open := keep_web a;
       sessions.fuzz_db_keep_only_n_pass_cases := record_passes a;
       sessions.web_port := web_port a;
       sessions.restart_interval := restart_interval a |} in
  emit (New_Session session);;
  emit (Set_ctx_obj session);;
  emit (Register_resultcallback
          (if feature_check a then Call_feature_check
           else Call_fuzz (test_case_name a) max_depth (qemu a)));;
  mret {| debugger := debugger; local_procmon := local_procmon;
          fuzz_loggers := fuzz_loggers; procmon_options := procmon_options;
          monitors := monitors; max_depth := max_depth;
          start := start; end_ := end_; session := session |}.

End Fuzz.

(** ** A reference runtime

    One implementation of [Runtime], for running the callback on concrete
    command lines: [int] on ASCII decimal literals, [shlex.split] in its
    default POSIX mode, and a file system in which [open] succeeds. *)

Module Reference.

Definition is_space (c : ascii) : bool :=
  let n := nat_of_ascii c in
  ((9 <=? n) && (n <=? 13) || (28 <=? n) && (n <=? 32))%nat.

Definition digit (c : ascii) : option Z :=
  let n := nat_of_ascii c in
  if ((48 <=? n) && (n <=? 57))%nat then Some (Z.of_nat n - 48) else None.

Fixpoint lstrip (s : string) : string :=
  match s with
  | String c s' => if is_space c then lstrip s' else s
  | EmptyString => s
  end.

Definition strip (s : string) : string :=
  String.rev (lstrip (String.rev (lstrip s))).

(** Digits with single underscores between them; [sep] tells that a digit
    must come next. *)
Fixpoint digits (sep : bool) (acc : Z) (s : string) : option Z :=
  match s with
  | EmptyString => if sep then None else Some acc
  | String c s' =>
      if Ascii.eqb c "_" then (if sep then None else digits true acc s')
      else match digit c with
           | Some d => digits false (10 * acc + d) s'
           | None => None
           end
  end.

(** [int(s)] in base 10. *)
Definition int_of_str (s : string) : option Z :=
  match strip s with
  | String "+" body => digits true 0 body
  | String "-" body => Z.opp <$> digits true 0 body
  | body => digits true 0 body
  end.

(** The tokenizer states of [shlex]: between tokens, inside a word,
    inside a quotation, after an escape character (remembering the state
    to come back to: [None] for a word, [Some q] for a quotation). *)
Inductive lexstate : Type :=
| Between
| Word
| Quoted (q : ascii)
| Escaped (back : option ascii).

Definition is_shlex_space (c : ascii) : bool :=
  let n := nat_of_ascii c in
  ((n =? 32) || (n =? 9) || (n =? 13) || (n =? 10))%nat.
Definition dquote : ascii := "034"%char.
Definition is_quote (c : ascii) : bool :=
  Ascii.eqb c "'" || Ascii.eqb c dquote.
Definition is_escape (c : ascii) : bool := Ascii.eqb c "\".

Definition snoc (tok : string) (c : ascii) : string :=
  (tok ++ String c EmptyString)%string.

Fixpoint lex (st : lexstate) (tok : string) (quoted : bool) (s : string)
  : option (list string) :=
  match s with
  | EmptyString =>
      match st with
      | Between => Some []
      | Word => if PyStr.truthy tok || quoted then Some [tok] else Some []
      | Quoted _ => None            (* No closing quotation *)
      | Escaped _ => None           (* No escaped character *)
      end
  | String c s' =>
      match st with
      | Between =>
          if is_shlex_space c then lex Between tok quoted s'
          else if is_escape c then lex (Escaped None) tok quoted s'
          else if is_quote c then lex (Quoted c) tok quoted s'
          else lex Word (String c EmptyString) quoted s'
      | Quoted q =>
          if Ascii.eqb c q then lex Word tok true s'
          else if is_escape c && Ascii.eqb q dquote then lex (Escaped (Some q)) tok true s'
          else lex (Quoted q) (snoc tok c) true s'
      | Escaped back =>
          match back with
          | Some q =>
              let tok := if negb (is_escape c) && negb (Ascii.eqb c q)
                         then snoc tok "\" else tok in
              lex (Quoted q) (snoc tok c) quoted s'
          | None => lex Word (snoc tok c) quoted s'
          end
      | Word =>
          if is_shlex_space c then
            (if PyStr.truthy tok || quoted
             then cons tok <$> lex Between EmptyString false s'
             else lex Between tok quoted s')
          else if is_quote c then lex (Quoted c) tok quoted s'
          else if is_escape c then lex (Escaped None) tok quoted s'
          else lex Word (snoc tok c) quoted s'
      end
  end.

(** [shlex.split(s)] *)
Definition split (s : string) : option (list string) :=
  lex Between EmptyString false s.

(** Modelled from the spec: [helpers.parse_target] is not part of this
    slice.  A target is a single [HOST:PORT] string; both parts are
    present and the port is numeric and in the valid range. *)
Definition parse_host_port (target_name : string) : option (string * Z) :=
  match PyStr.split ":" target_name with
  | [host; port] =>
      if PyStr.truthy host then
        match int_of_str port with
        | Some p => if ((0 <=? p) && (p <=? 65535))%Z then Some (host, p) else None
        | None => None
        end
      else None
  | _ => None
  end.

(** Every [open] succeeds and hands out descriptor 3. *)
Definition open_any (path mode : string) : option nat := Some 3%nat.

#[export] Instance runtime : Runtime := {|
  py_int := int_of_str;
  shlex_split := split;
  parse_target := parse_host_port;
  os_open := open_any
|}.

End Reference.

(** ** Vocabulary of the statements *)

(** [m] only appends events satisfying [Q] to the trace. *)
Definition emits_only {A} (Q : event → Prop) (m : M A) : Prop :=
  ∀ w, ∃ evs, trace (m w).2 = trace w ++ evs ∧ Forall Q evs.

(** The callback returned, as opposed to exiting or raising. *)
Definition returned {A} (o : outcome A) : bool :=
  match o with
  | Returns _ => true
  | _ => false
  end.

(** A float that is greater than zero. *)
Definition positive_float (x : spec_float) : bool :=
  match x with
  | S754_finite false _ _ | S754_infinity false => true
  | _ => false
  end.

(** The world after the callback printed one line and did nothing else. *)
Definition printed (line : string) (w : world) : world :=
  {| QEMU_PATH := QEMU_PATH w; stderr := stderr w ++ [line]; trace := trace w |}.

(** The world after [evs] were appended to the trace and nothing else
    changed. *)
Definition add_events (evs : list event) (w : world) : world :=
  {| QEMU_PATH := QEMU_PATH w; stderr := stderr w; trace := trace w ++ evs |}.

(** The events a run appended, given the worlds before and after it. *)
Definition new_events (w w' : world) : list event :=
  drop (length (trace w)) (trace w').

(** [m] neither exits, nor prints, nor touches [QEMU_PATH]: all it does to
    the world is append events. *)
Definition construction_only {A} (m : M A) : Prop :=
  ∀ w, (∃ evs, (m w).2 = add_events evs w) ∧ ∀ c, (m w).1 ≠ Exits c.

Section Vocabulary.

Context `{Runtime}.

(** What each event of a run of [fuzz] on arguments [a] can be. *)
Definition event_of_run (a : fuzz_args) (e : event) : Prop :=
  match e with
  | New_ProcessMonitorLocal k =>
      is_Some (target_cmd a) ∧ procmon_host a = None ∧
      ∃ d, k = ProcessMonitorLocal "boofuzz-crash-bin" None None d 1
  | New_FuzzLoggerText => text_dump a = true
  | New_FuzzLoggerCurses => text_dump a = false ∧ tui a = true
  | Open_file path mode =>
      path = "boofuzz.csv" ∧ mode = "wb" ∧ is_Some (csv_out a)
  | New_FuzzLoggerCsv f =>
      is_Some (csv_out a) ∧ os_open "boofuzz.csv" "wb" = Some f
  | New_ProcessMonitor host port =>
      procmon_host a = Some host ∧ port = procmon_port a
  | Call_set_options kwargs =>
      (is_Some (target_cmd a) ∨ is_Some (procmon_host a)) ∧
      build_procmon_options (target_cmd a) (target_start_wait a) (stdout a)
        = Ok kwargs
  | New_TCPSocketConnection host port =>
      parse_target (target a) = Some (host, port)
  | New_Session s | Set_ctx_obj s =>
      parse_test_case_index (test_case_index a)
        = Ok (sessions.index_start s, sessions.index_end s)
  | Register_resultcallback c =>
      c = if feature_check a then Call_feature_check
          else Call_fuzz (test_case_name a)
                 (resolve_max_depth (combinatorial a)) (qemu a)
  end.

End Vocabulary.

(** ** Concrete command lines *)

Module Examples.

Definition zero : spec_float := S754_zero false.
(** -1.0 as a binary64 value. *)
Definition minus_one : spec_float := S754_finite true 4503599627370496 (-52).

(** A fresh process: no tracer found on the search path, nothing printed,
    nothing constructed. *)
Definition fresh : world := {| QEMU_PATH := None; stderr := []; trace := [] |}.

(** A process in which the import of the QEMU backend found a tracer. *)
Definition with_tracer : world :=
  {| QEMU_PATH := Some "/usr/bin/afl-qemu-trace"; stderr := []; trace := [] |}.

(** [fuzz --target 127.0.0.1:9999] and the options the examples vary; every
    other option at the default its declaration gives. *)
Definition command_line (test_case_index csv_out procmon_host : option string)
    (stdout : string) (tui text_dump : bool) (target_cmd : option string)
    (qemu : bool) (qemu_path : option string) (target_start_wait : spec_float)
  : fuzz_args :=
  {| target := "127.0.0.1:9999";
     test_case_index := test_case_index;
     test_case_name := None;
     csv_out := csv_out;
     sleep_between_cases := zero;
     procmon_host := procmon_host;
     procmon_port := 26002;
     stdout := stdout;
     tui := tui;
     text_dump := text_dump;
     feature_check := false;
     target_cmd := target_cmd;
     keep_web := true;
     combinatorial := true;
     record_passes := 10;
     qemu := qemu;
     qemu_path := qemu_path;
     web_port := 26000;
     restart_interval := None;
     target_start_wait := target_start_wait |}.

(** [fuzz --target 127.0.0.1:9999] alone. *)
Definition plain : fuzz_args :=
  command_line None None None "MIRROR" false false None false None zero.

(** [--target-cmd "mybinary --flag" --qemu] *)
Definition with_qemu : fuzz_args :=
  command_line None None None "MIRROR" false false
    (Some "mybinary --flag") true None zero.

(** [--target-cmd "mybinary --flag" --qemu-path /opt/afl-qemu-trace],
    without [--qemu]. *)
Definition without_qemu : fuzz_args :=
  command_line None None None "MIRROR" false false
    (Some "mybinary --flag") false (Some "/opt/afl-qemu-trace") zero.

(** [--qemu --qemu-path /opt/afl-qemu-trace] *)
Definition with_qemu_path : fuzz_args :=
  command_line None None None "MIRROR" false false
    None true (Some "/opt/afl-qemu-trace") zero.

(** [--test-case-index 1-5-9 --csv-out run.csv] *)
Definition two_separators : fuzz_args :=
  command_line (Some "1-5-9") (Some "run.csv") None "MIRROR" false false
    None false None zero.

(** [--procmon-host 10.0.0.5 --target-cmd "mybinary --flag"] *)
Definition remote_monitor : fuzz_args :=
  command_line None None (Some "10.0.0.5") "MIRROR" false false
    (Some "mybinary --flag") false None zero.

(** [--target-cmd "mybinary --flag" --stdout CAPTURE] *)
Definition local_monitor : fuzz_args :=
  command_line None None None "CAPTURE" false false
    (Some "mybinary --flag") false None zero.

(** [--text-dump --tui --csv-out results/run.csv] *)
Definition all_sinks : fuzz_args :=
  command_line None (Some "results/run.csv") None "MIRROR" true true
    None false None zero.

End Examples.

(** ** Closed forms of the stages of a run

    What each constructing block of [fuzz] yields and emits, as functions
    of the arguments; [fuzz_summary] below proves that a run is made of
    them. *)

Section Stages.

Context `{Runtime}.

Definition stage_local (a : fuzz_args) (d : debugger_class) : option monitor :=
  match target_cmd a, procmon_host a with
  | Some _, None =>
      Some {| kind := ProcessMonitorLocal "boofuzz-crash-bin" None None d 1;
              options := ∅ |}
  | _, _ => None
  end.

Definition stage_local_events (a : fuzz_args) (d : debugger_class) : list event :=
  match stage_local a d with
  | Some m => [New_ProcessMonitorLocal (kind m)]
  | None => []
  end.

Definition stage_text_sinks (a : fuzz_args) : list fuzz_logger :=
  if text_dump a then [FuzzLoggerText]
  else if tui a then [FuzzLoggerCurses] else [].

Definition stage_text_events (a : fuzz_args) : list event :=
  if text_dump a then [New_FuzzLoggerText]
  else if tui a then [New_FuzzLoggerCurses] else [].

Definition stage_csv_sink (a : fuzz_args) : list fuzz_logger :=
  match csv_out a, os_open "boofuzz.csv" "wb" with
  | Some _, Some f => [FuzzLoggerCsv f]
  | _, _ => []
  end.

Definition stage_csv_events (a : fuzz_args) : list event :=
  match csv_out a, os_open "boofuzz.csv" "wb" with
  | Some _, Some f => [Open_file "boofuzz.csv" "wb"; New_FuzzLoggerCsv f]
  | Some _, None => [Open_file "boofuzz.csv" "wb"]
  | None, _ => []
  end.

Definition stage_monitors (a : fuzz_args) (d : debugger_class)
    (kwargs : gmap string optval) : list monitor :=
  match procmon_host a, stage_local a d with
  | Some host, _ =>
      [{| kind := ProcessMonitor host (procmon_port a); options := kwargs |}]
  | None, Some m => [set_options kwargs m]
  | None, None => []
  end.

Definition stage_monitor_events (a : fuzz_args) (d : debugger_class)
    (kwargs : gmap string optval) : list event :=
  match procmon_host a, stage_local a d with
  | Some host, _ =>
      [New_ProcessMonitor host (procmon_port a); Call_set_options kwargs]
  | None, Some _ => [Call_set_options kwargs]
  | None, None => []
  end.

(** The session [fuzz] constructs from its arguments and what it resolved. *)
Definition stage_session (a : fuzz_args) (ms : list monitor)
    (loggers : list fuzz_logger) (start : Z) (end_ : option Z)
    (host : string) (port : Z) : sessions.Session :=
  {| sessions.target :=
       {| sessions.connection := TCPSocketConnection host port;
          sessions.monitors := ms |};
     sessions.fuzz_loggers := loggers;
     sessions.sleep_time := sleep_between_cases a;
     sessions.index_start := start;
     sessions.index_end := end_;
     sessions.keep_web_open := keep_web a;
     sessions.fuzz_db_keep_only_n_pass_cases := record_passes a;
     sessions.web_port := web_port a;
     sessions.restart_interval := restart_interval a |}.

(** What [fuzzcallback] (cli.py lines 207-212) calls on the session. *)
Definition stage_callback (a : fuzz_args) : session_call :=
  if feature_check a then Call_feature_check
  else Call_fuzz (test_case_name a) (resolve_max_depth (combinatorial a)) (qemu a).


End Stages.

(** The world with [QEMU_PATH] replaced. *)
Definition with_QEMU_PATH (p : option string) (w : world) : world :=
  {| QEMU_PATH := p; stderr := stderr w; trace := trace w |}.

(** [c.join(parts)] for a one-character string [c]. *)
Fixpoint join (c : ascii) (parts : list string) : string :=
  match parts with
  | [] => EmptyString
  | [part] => part
  | part :: rest => (part ++ String c (join c rest))%string
  end.

(** ** The [open] command (cli.py lines 231-239)

    [open_file] configures debug logging when asked, starts the viewer
    through [sessions.open_test_run], prints one line to stdout and then
    sleeps in a loop that has no exit.  The loop is unrolled a given number
    of times; the command is then still running. *)

Module OpenCommand.

Inductive viewer_call : Type :=
| Call_basicConfig_DEBUG                       (* logging.basicConfig(level=logging.DEBUG) *)
| Call_open_test_run (db_filename : string) (port : Z) (address : string)
| Call_sleep.                                  (* time.sleep(0.001) *)

Record viewer_world : Type := {
  printed_lines : list string;   (* lines printed to sys.stdout *)
  calls : list viewer_call
}.

Inductive viewer_status : Type :=
| Sleeping                       (* inside the [while True] loop *)
| Raised_by_open_test_run.

Definition call (c : viewer_call) (w : viewer_world) : viewer_world :=
  {| printed_lines := printed_lines w; calls := calls w ++ [c] |}.

Definition print (line : string) (w : viewer_world) : viewer_world :=
  {| printed_lines := printed_lines w ++ [line]; calls := calls w |}.

(** ["Serving web page at http://{0}:{1}. Hit Ctrl+C to quit.".format(ui_addr, ui_port)] *)
Definition ready_line (ui_addr : string) (ui_port : Z) : string :=
  ("Serving web page at http://" ++ ui_addr ++ ":" ++ pretty ui_port
     ++ ". Hit Ctrl+C to quit.")%string.

(** [while True: time.sleep(0.001)], unrolled [n] times. *)
Fixpoint sleep_loop (n : nat) (w : viewer_world) : viewer_world :=
  match n with
  | O => w
  | S n' => sleep_loop n' (call Call_sleep w)
  end.

Section OpenFile.

(** Modelled from the spec: [sessions.open_test_run] is not part of this
    slice; it starts a viewer service for a stored run and may fail.
    [false] stands for the call raising. *)
Variable open_test_run : string -> Z -> string -> bool.

Definition open_file (iterations : nat) (debug : bool) (filename : string)
    (ui_port : Z) (ui_addr : string) (w : viewer_world)
  : viewer_status * viewer_world :=
  let w := if debug then call Call_basicConfig_DEBUG w else w in
  let w := call (Call_open_test_run filename ui_port ui_addr) w in
  if open_test_run filename ui_port ui_addr then
    let w := print (ready_line ui_addr ui_port) w in
    (Sleeping, sleep_loop iterations w)
  else (Raised_by_open_test_run, w).

End OpenFile.

End OpenCommand.

(** ** More command lines *)

Module MoreExamples.

(** The same command line with another [--target]. *)
Definition retarget (t : string) (a : fuzz_args) : fuzz_args :=
  {| target := t;
     test_case_index := test_case_index a;
     test_case_name := test_case_name a;
     csv_out := csv_out a;
     sleep_between_cases := sleep_between_cases a;
     procmon_host := procmon_host a;
     procmon_port := procmon_port a;
     stdout := stdout a;
     tui := tui a;
     text_dump := text_dump a;
     feature_check := feature_check a;
     target_cmd := target_cmd a;
     keep_web := keep_web a;
     combinatorial := combinatorial a;
     record_passes := record_passes a;
     qemu := qemu a;
     qemu_path := qemu_path a;
     web_port := web_port a;
     restart_interval := restart_interval a;
     target_start_wait := target_start_wait a |}.


(** [--target nohost --csv-out run.csv --procmon-host 10.0.0.5
    --target-cmd "mybinary --flag"]: only the target is malformed. *)
Definition bad_target : fuzz_args :=
  retarget "nohost"
    (Examples.command_line None (Some "run.csv") (Some "10.0.0.5")
       "MIRROR" false false (Some "mybinary --flag") false None Examples.zero).

(** [--qemu --qemu-path ""] *)
Definition empty_override : fuzz_args :=
  Examples.command_line None None None "MIRROR" false false
    None true (Some EmptyString) Examples.zero.

(** [--test-case-index 3-8 --test-case-name login --stdout HIDE --tui
    --target-cmd "mybinary --flag" --no-keep-web --no-combinatorial
    --record-passes 0 --qemu --web-port 8080 --restart-interval 50] *)
Definition qemu_local : fuzz_args :=
  {| target := "127.0.0.1:9999";
     test_case_index := Some "3-8";
     test_case_name := Some "login";
     csv_out := None;
     sleep_between_cases := Examples.zero;
     procmon_host := None;
     procmon_port := 26002;
     stdout := "HIDE";
     tui := true;
     text_dump := false;
     feature_check := false;
     target_cmd := Some "mybinary --flag";
     keep_web := false;
     combinatorial := false;
     record_passes := 0;
     qemu := true;
     qemu_path := None;
     web_port := 8080;
     restart_interval := Some 50;
     target_start_wait := Examples.zero |}.

(** A runtime whose [int] answers 0 on every string with a ["-"] in it and
    is the reference one elsewhere. *)
Definition dash_blind : Runtime :=
  {| py_int := λ s, if PyStr.contains dash s then Some 0
                    else Reference.int_of_str s;
     shlex_split := Reference.split;
     parse_target := Reference.parse_host_port;
     os_open := Reference.open_any |}.

(** A viewer service that starts for every stored run but ["missing.db"]. *)
Definition viewer_starts (db_filename : string) (port : Z) (address : string)
  : bool :=
  negb (String.eqb db_filename "missing.db").

Definition idle : OpenCommand.viewer_world :=
  {| OpenCommand.printed_lines := []; OpenCommand.calls := [] |}.

End MoreExamples.

(** ** Reading the constructions off a trace *)

(** The sink an event constructed, if it constructed one. *)
Definition sink_built (e : event) : option fuzz_logger :=
  match e with
  | New_FuzzLoggerText => Some FuzzLoggerText
  | New_FuzzLoggerCurses => Some FuzzLoggerCurses
  | New_FuzzLoggerCsv f => Some (FuzzLoggerCsv f)
  | _ => None
  end.

(** The monitor an event constructed, if it constructed one. *)
Definition monitor_built (e : event) : option monitor_kind :=
  match e with
  | New_ProcessMonitorLocal k => Some k
  | New_ProcessMonitor host port => Some (ProcessMonitor host port)
  | _ => None
  end.

(** The options an event pushed onto a monitor, if it pushed some. *)
Definition options_pushed (e : event) : option (gmap string optval) :=
  match e with
  | Call_set_options kwargs => Some kwargs
  | _ => None
  end.

(** The file an event opened, if it opened one. *)
Definition file_opened (e : event) : option (string * string) :=
  match e with
  | Open_file path mode => Some (path, mode)
  | _ => None
  end.

(** Unfold the monad's operations in the goal. *)
Ltac run_monad :=
  cbv beta iota zeta delta
    [mbind M_bind mret M_ret sys_exit raise print_stderr emit
     get_QEMU_PATH set_QEMU_PATH lift];
  cbn [QEMU_PATH stderr trace fst snd].

(** * Properties *)

(** ** [str.split] and [in] *)

Module PyStrFacts.
Import PyStr.

Lemma split_length c s : length (split c s) = S (count c s).
Proof.
  induction s as [|x s IH]; simpl; [reflexivity|].
  destruct (Ascii.eqb x c); simpl; [by rewrite IH|].
  destruct (split c s) eqn:E; simpl in *; [discriminate|exact IH].
Qed.

Lemma contains_count c s : contains c s = false ↔ count c s = O.
Proof.
  induction s as [|x s IH]; simpl; [done|].
  destruct (Ascii.eqb x c); [split; discriminate|exact IH].
Qed.

Lemma split_without c s : contains c s = false → split c s = [s].
Proof.
  induction s as [|x s IH]; simpl; [done|].
  destruct (Ascii.eqb x c); [discriminate|].
  intros Hs. by rewrite (IH Hs).
Qed.

Lemma split_at_first c a b :
  contains c a = false →
  split c (a ++ String c b)%string = a :: split c b.
Proof.
  induction a as [|x a IH]; simpl.
  - intros _. by rewrite Ascii.eqb_refl.
  - destruct (Ascii.eqb x c); [discriminate|].
    intros Ha. by rewrite (IH Ha).
Qed.

Lemma contains_app c a b : contains c (a ++ String c b)%string = true.
Proof.
  induction a as [|x a IH]; simpl.
  - by rewrite Ascii.eqb_refl.
  - by destruct (Ascii.eqb x c).
Qed.

(** A string with a separator decomposes at its first occurrence. *)
Lemma contains_decompose c s :
  contains c s = true →
  ∃ a b, s = (a ++ String c b)%string ∧ contains c a = false.
Proof.
  induction s as [|x s IH]; simpl; [discriminate|].
  destruct (Ascii.eqb x c) eqn:E.
  - intros _. apply Ascii.eqb_eq in E as ->. by exists EmptyString, s.
  - intros Hs. destruct (IH Hs) as (a & b & -> & Ha).
    exists (String x a), b. simpl. by rewrite E.
Qed.

End PyStrFacts.

(** ** The range parser (cli.py lines 171-185) *)

Section RangeParserFacts.

Context `{Runtime}.
Import PyStr PyStrFacts.

Lemma split_two a b :
  contains dash a = false → contains dash b = false →
  split dash (a ++ String dash b)%string = [a; b].
Proof.
  intros Ha Hb. by rewrite split_at_first, (split_without _ _ Hb).
Qed.

(** With one separator the two sides are resolved left to right. *)
Lemma parse_separated a b :
  contains dash a = false → contains dash b = false →
  parse_test_case_index (Some (a ++ String dash b)%string) =
    rbind (if negb (truthy a) then Ok 1 else int a) (fun start =>
    rbind (if negb (truthy b) then Ok None
           else rbind (int b) (fun e => Ok (Some e))) (fun end_ =>
    Ok (start, end_))).
Proof.
  intros Ha Hb. unfold parse_test_case_index.
  by rewrite contains_app, split_two.
Qed.

Lemma parse_unseparated s :
  contains dash s = false →
  parse_test_case_index (Some s) = rbind (int s) (fun n => Ok (n, Some n)).
Proof. intros Hs. unfold parse_test_case_index. by rewrite Hs. Qed.

Lemma parse_too_many s :
  (2 ≤ count dash s)%nat →
  parse_test_case_index (Some s) = Err ValueError_too_many_values.
Proof.
  intros Hn. unfold parse_test_case_index.
  destruct (contains dash s) eqn:Hc.
  - pose proof (split_length dash s) as Hl.
    destruct (split dash s) as [|p1 [|p2 [|p3 ps]]]; simpl in Hl; try lia.
    reflexivity.
  - apply contains_count in Hc. lia.
Qed.

End RangeParserFacts.

(** ** Running the monad *)

Section MonadFacts.

Lemma run_bind {A B} (m : M A) (k : A → M B) (w : world) :
  (m ≫= k) w =
    match m w with
    | (Returns a, w') => k a w'
    | (Exits c, w') => (Exits c, w')
    | (Raises e, w') => (Raises e, w')
    end.
Proof. reflexivity. Qed.

Lemma run_lift_Ok {A} (a : A) (w : world) : lift (Ok a) w = (Returns a, w).
Proof. reflexivity. Qed.

Lemma emits_only_silent {A} Q (m : M A) :
  (∀ w, trace (m w).2 = trace w) → emits_only Q m.
Proof. intros Hm w. exists []. by rewrite Hm, app_nil_r. Qed.

Lemma emits_only_ret {A} Q (a : A) : emits_only Q (mret a).
Proof. by apply emits_only_silent. Qed.

Lemma emits_only_raise {A} Q e : emits_only Q (@raise A e).
Proof. by apply emits_only_silent. Qed.

Lemma emits_only_lift {A} Q (r : result A) : emits_only Q (lift r).
Proof. destruct r; by apply emits_only_silent. Qed.

Lemma emits_only_emit (Q : event → Prop) e : Q e → emits_only Q (emit e).
Proof. intros He w. exists [e]. split; [done|]. by constructor. Qed.

Lemma emits_only_bind {A B} Q (m : M A) (k : A → M B) :
  emits_only Q m →
  (∀ a w w', m w = (Returns a, w') → emits_only Q (k a)) →
  emits_only Q (m ≫= k).
Proof.
  intros Hm Hk w. rewrite run_bind.
  destruct (Hm w) as (evs & Ht & Hq).
  destruct (m w) as [[a|c|e] w'] eqn:E; simpl in Ht; [|by exists evs..].
  destruct (Hk a w w' E w') as (evs' & Ht' & Hq').
  exists (evs ++ evs'). split.
  - by rewrite Ht', Ht, app_assoc.
  - by apply Forall_app.
Qed.

End MonadFacts.

(** ** The blocks of the callback *)

Section BlockFacts.

Context `{Runtime}.
Variable platform_system : string.

Lemma lift_Returns_inv {A} (r : result A) (a : A) (w w' : world) :
  lift r w = (Returns a, w') → r = Ok a ∧ w' = w.
Proof. destruct r; simpl; intros [= <- <-] || intros [=]; done. Qed.

Lemma select_debugger_emits Q qemu qemu_path :
  emits_only Q (select_debugger platform_system qemu qemu_path).
Proof.
  apply emits_only_silent. intros w. unfold select_debugger.
  destruct qemu; [|done].
  destruct (String.eqb platform_system "Windows"); [done|].
  destruct qemu_path as [p|]; run_monad.
  - by destruct (truthy_opt_str (Some p)).
  - by destruct (truthy_opt_str (QEMU_PATH w)).
Qed.

Lemma make_local_procmon_emits a debugger :
  emits_only (event_of_run a)
    (make_local_procmon (target_cmd a) (procmon_host a) debugger).
Proof.
  unfold make_local_procmon.
  destruct (target_cmd a) as [cmd|] eqn:Ec, (procmon_host a) eqn:Eh;
    try apply emits_only_ret.
  apply emits_only_bind; [|intros; apply emits_only_ret].
  apply emits_only_emit. simpl. rewrite Ec, Eh. eauto.
Qed.

Lemma assemble_fuzz_loggers_emits a :
  emits_only (event_of_run a)
    (assemble_fuzz_loggers (text_dump a) (tui a) (csv_out a)).
Proof.
  unfold assemble_fuzz_loggers. apply emits_only_bind.
  - destruct (text_dump a) eqn:Et; [|destruct (tui a) eqn:Eu].
    + apply emits_only_bind; [by apply emits_only_emit|intros; apply emits_only_ret].
    + apply emits_only_bind; [|intros; apply emits_only_ret].
      apply emits_only_emit. by simpl.
    + apply emits_only_ret.
  - intros loggers _ _ _.
    destruct (csv_out a) as [path|] eqn:Ec; [|apply emits_only_ret].
    apply emits_only_bind.
    + apply emits_only_emit. simpl. rewrite Ec. eauto.
    + intros _ _ _ _. destruct (os_open "boofuzz.csv" "wb") as [f|] eqn:Eo;
        [|apply emits_only_raise].
      apply emits_only_bind; [|intros; apply emits_only_ret].
      apply emits_only_emit. simpl. rewrite Ec. eauto.
Qed.

Lemma attach_monitors_emits a local_procmon kwargs :
  (is_Some local_procmon → is_Some (target_cmd a)) →
  build_procmon_options (target_cmd a) (target_start_wait a) (stdout a)
    = Ok kwargs →
  emits_only (event_of_run a)
    (attach_monitors local_procmon (procmon_host a) (procmon_port a) kwargs).
Proof.
  intros Hl Hk. unfold attach_monitors.
  destruct (bool_decide (local_procmon ≠ None) || bool_decide (procmon_host a ≠ None));
    [|apply emits_only_ret].
  destruct (procmon_host a) as [host|] eqn:Eh.
  - apply emits_only_bind.
    + apply emits_only_bind; [|intros; apply emits_only_ret].
      apply emits_only_emit. simpl. by rewrite Eh.
    + intros [m|] _ _ _; [|apply emits_only_raise].
      apply emits_only_bind; [|intros; apply emits_only_ret].
      apply emits_only_emit. simpl. rewrite Eh. eauto.
  - apply emits_only_bind; [apply emits_only_ret|].
    intros [m|] w w' [= -> _]; [|apply emits_only_raise].
    apply emits_only_bind; [|intros; apply emits_only_ret].
    apply emits_only_emit. simpl. split; [|done]. left. by apply Hl.
Qed.

Lemma make_local_procmon_Some tc ph d w m w' :
  make_local_procmon tc ph d w = (Returns (Some m), w') → is_Some tc.
Proof.
  unfold make_local_procmon. destruct tc, ph; simpl; intros [=]; eauto.
Qed.

End BlockFacts.

(** ** The callback as a whole *)

Section FuzzFacts.

Context `{Runtime}.
Variable platform_system : string.

(** Every event of a run is one the arguments account for. *)
Lemma fuzz_emits a : emits_only (event_of_run a) (fuzz platform_system a).
Proof.
  unfold fuzz.
  apply emits_only_bind; [apply select_debugger_emits|].
  intros debugger _ _ _.
  apply emits_only_bind; [apply make_local_procmon_emits|].
  intros local_procmon w1 w2 Hlocal.
  apply emits_only_bind; [apply assemble_fuzz_loggers_emits|].
  intros loggers _ _ _.
  apply emits_only_bind; [apply emits_only_lift|].
  intros kwargs w3 w4 [Hkw _]%lift_Returns_inv.
  apply emits_only_bind.
  { apply attach_monitors_emits; [|done].
    intros [m ->]. by eapply make_local_procmon_Some. }
  intros mons _ _ _.
  apply emits_only_bind; [apply emits_only_lift|].
  intros [st en] w5 w6 [Hparse _]%lift_Returns_inv.
  apply emits_only_bind; [apply emits_only_lift|].
  intros [host port] w7 w8 [Htarget _]%lift_Returns_inv.
  destruct (parse_target (target a)) as [hp|] eqn:Et; [|done].
  injection Htarget as ->.
  repeat (apply emits_only_bind;
          [by apply emits_only_emit|intros _ _ _ _]).
  apply emits_only_ret.
Qed.

(** A run that returns went through every block, in order. *)
Lemma fuzz_Returns_inv a w f w' :
  fuzz platform_system a w = (Returns f, w') →
  ∃ w1 w2 w3 w4,
    select_debugger platform_system (qemu a) (qemu_path a) w
      = (Returns (debugger f), w1) ∧
    make_local_procmon (target_cmd a) (procmon_host a) (debugger f) w1
      = (Returns (local_procmon f), w2) ∧
    assemble_fuzz_loggers (text_dump a) (tui a) (csv_out a) w2
      = (Returns (fuzz_loggers f), w3) ∧
    build_procmon_options (target_cmd a) (target_start_wait a) (stdout a)
      = Ok (procmon_options f) ∧
    attach_monitors (local_procmon f) (procmon_host a) (procmon_port a)
        (procmon_options f) w3
      = (Returns (monitors f), w4) ∧
    max_depth f = resolve_max_depth (combinatorial a) ∧
    parse_test_case_index (test_case_index a) = Ok (start f, end_ f) ∧
    sessions.monitors (sessions.target (session f)) = monitors f ∧
    sessions.fuzz_loggers (session f) = fuzz_loggers f ∧
    sessions.index_start (session f) = start f ∧
    sessions.index_end (session f) = end_ f ∧
    ∃ host port,
      parse_target (target a) = Some (host, port) ∧
      sessions.connection (sessions.target (session f))
        = TCPSocketConnection host port ∧
      w' = {| QEMU_PATH := QEMU_PATH w4; stderr := stderr w4;
              trace := trace w4 ++
                [New_TCPSocketConnection host port;
                 New_Session (session f); Set_ctx_obj (session f);
                 Register_resultcallback
                   (if feature_check a then Call_feature_check
                    else Call_fuzz (test_case_name a) (max_depth f) (qemu a))] |}.
Proof.
  unfold fuzz. rewrite run_bind.
  destruct (select_debugger _ _ _ w) as [[d| |] w1] eqn:E1; [|done..].
  rewrite run_bind.
  destruct (make_local_procmon _ _ _ w1) as [[lp| |] w2] eqn:E2; [|done..].
  rewrite run_bind.
  destruct (assemble_fuzz_loggers _ _ _ w2) as [[fl| |] w3] eqn:E3; [|done..].
  rewrite run_bind.
  destruct (build_procmon_options _ _ _) as [kw|] eqn:E4; [|done].
  rewrite run_lift_Ok, run_bind.
  destruct (attach_monitors _ _ _ _ w3) as [[ms| |] w4] eqn:E5; [|done..].
  rewrite run_bind.
  destruct (parse_test_case_index _) as [[st en]|] eqn:E6; [|done].
  rewrite run_lift_Ok, run_bind.
  destruct (parse_target _) as [[host port]|] eqn:E7; [|done].
  rewrite run_lift_Ok. run_monad. intros [= <- <-]. simpl.
  exists w1, w2, w3, w4. repeat (split; [done|]).
  exists host, port. repeat (split; [done|]).
  by rewrite <- !app_assoc.
Qed.

End FuzzFacts.

(** ** After the debugger is selected, the callback only constructs *)

Section ConstructionFacts.

Context `{Runtime}.
Variable platform_system : string.

Lemma add_events_nil w : add_events [] w = w.
Proof. destruct w. unfold add_events. simpl. by rewrite app_nil_r. Qed.

Lemma add_events_app evs evs' w :
  add_events evs' (add_events evs w) = add_events (evs ++ evs') w.
Proof. unfold add_events. simpl. by rewrite app_assoc. Qed.

Lemma new_events_add evs w : new_events w (add_events evs w) = evs.
Proof. unfold new_events, add_events. simpl. by rewrite drop_app_length. Qed.

Lemma construction_ret {A} (a : A) : construction_only (mret a).
Proof. intros w. split; [|done]. exists []. by rewrite add_events_nil. Qed.

Lemma construction_raise {A} e : construction_only (@raise A e).
Proof. intros w. split; [|done]. exists []. by rewrite add_events_nil. Qed.

Lemma construction_lift {A} (r : result A) : construction_only (lift r).
Proof. destruct r; [apply construction_ret|apply construction_raise]. Qed.

Lemma construction_emit e : construction_only (emit e).
Proof. intros w. split; [|done]. by exists [e]. Qed.

Lemma construction_bind {A B} (m : M A) (k : A → M B) :
  construction_only m → (∀ a, construction_only (k a)) →
  construction_only (m ≫= k).
Proof.
  intros Hm Hk w. rewrite run_bind.
  destruct (Hm w) as [[evs Hw] Hc].
  destruct (m w) as [[a|c|e] w'] eqn:E; simpl in *.
  - subst w'. destruct (Hk a (add_events evs w)) as [[evs' Hw'] Hc'].
    split; [|done]. exists (evs ++ evs'). by rewrite Hw', add_events_app.
  - by destruct (Hc c).
  - split; [|done]. by exists evs.
Qed.

Lemma make_local_procmon_construction tc ph d :
  construction_only (make_local_procmon tc ph d).
Proof.
  unfold make_local_procmon. destruct tc, ph; try apply construction_ret.
  apply construction_bind; [apply construction_emit|intros; apply construction_ret].
Qed.

Lemma assemble_fuzz_loggers_construction td tu csv :
  construction_only (assemble_fuzz_loggers td tu csv).
Proof.
  unfold assemble_fuzz_loggers. apply construction_bind.
  - destruct td; [|destruct tu]; try apply construction_ret;
      (apply construction_bind;
       [apply construction_emit|intros; apply construction_ret]).
  - intros loggers. destruct csv; [|apply construction_ret].
    apply construction_bind; [apply construction_emit|intros _].
    destruct (os_open _ _); [|apply construction_raise].
    apply construction_bind; [apply construction_emit|intros; apply construction_ret].
Qed.

Lemma attach_monitors_construction lp ph port kw :
  construction_only (attach_monitors lp ph port kw).
Proof.
  unfold attach_monitors.
  destruct (_ || _); [|apply construction_ret].
  apply construction_bind.
  - destruct ph; [|apply construction_ret].
    apply construction_bind; [apply construction_emit|intros; apply construction_ret].
  - intros [m|]; [|apply construction_raise].
    apply construction_bind; [apply construction_emit|intros; apply construction_ret].
Qed.

Lemma fuzz_rest a w d w1 :
  select_debugger platform_system (qemu a) (qemu_path a) w = (Returns d, w1) →
  (∃ evs, (fuzz platform_system a w).2 = add_events evs w1) ∧
  (∀ c, (fuzz platform_system a w).1 ≠ Exits c).
Proof.
  intros E. unfold fuzz. rewrite run_bind, E.
  match goal with |- (∃ evs, (?m w1).2 = _) ∧ _ =>
    cut (construction_only m); [intros Hm; apply (Hm w1)|] end.
  apply construction_bind; [apply make_local_procmon_construction|intros lp].
  apply construction_bind; [apply assemble_fuzz_loggers_construction|intros fl].
  apply construction_bind; [apply construction_lift|intros kw].
  apply construction_bind; [apply attach_monitors_construction|intros ms].
  apply construction_bind; [apply construction_lift|intros [st en]].
  apply construction_bind; [apply construction_lift|intros [host port]].
  repeat (apply construction_bind; [apply construction_emit|intros _]).
  apply construction_ret.
Qed.

(** [fuzz] is [select_debugger] followed by construction only. *)
Lemma fuzz_after_select a w :
  match select_debugger platform_system (qemu a) (qemu_path a) w with
  | (Returns d, w1) =>
      (∃ evs, (fuzz platform_system a w).2 = add_events evs w1) ∧
      (∀ c, (fuzz platform_system a w).1 ≠ Exits c) ∧
      (∀ f w', fuzz platform_system a w = (Returns f, w') → debugger f = d)
  | (Exits c, w1) => fuzz platform_system a w = (Exits c, w1)
  | (Raises e, w1) => fuzz platform_system a w = (Raises e, w1)
  end.
Proof.
  destruct (select_debugger _ _ _ w) as [[d|c|e] w1] eqn:E.
  - destruct (fuzz_rest a w d w1 E) as [Hw Hc]. split_and!; [done..|].
    intros f w' (w1' & _ & _ & _ & E' & _)%fuzz_Returns_inv. congruence.
  - unfold fuzz. by rewrite run_bind, E.
  - unfold fuzz. by rewrite run_bind, E.
Qed.

End ConstructionFacts.

(** * The claims *)

Section RangeClaims.

Context `{Runtime}.
Import PyStr PyStrFacts.

(** C1.  The range parser maps an absent specifier to start 1 and an
    unbounded end; a specifier [a] without separator to start = end =
    [int(a)]; and a specifier [a-b] with exactly one separator to start 1
    when [a] is empty and [int(a)] otherwise, and to an unbounded end when
    [b] is empty and [int(b)] otherwise.  A side [int] rejects makes the
    parser raise, the left side first. *)
Theorem C1_range_parser (a b : string) :
  contains dash a = false → contains dash b = false →
  parse_test_case_index None = Ok (1, None) ∧
  parse_test_case_index (Some a) =
    match py_int a with
    | Some n => Ok (n, Some n)
    | None => Err (ValueError_int a)
    end ∧
  parse_test_case_index (Some (a ++ "-" ++ b)%string) =
    match (if decide (a = EmptyString) then Some 1 else py_int a) with
    | None => Err (ValueError_int a)
    | Some start =>
        match (if decide (b = EmptyString) then Some None else Some <$> py_int b) with
        | None => Err (ValueError_int b)
        | Some end_ => Ok (start, end_)
        end
    end.
Proof.
  intros Ha Hb. split_and!.
  - reflexivity.
  - rewrite (parse_unseparated a Ha). unfold int.
    by destruct (py_int a).
  - change (a ++ "-" ++ b)%string with (a ++ String dash b)%string.
    rewrite (parse_separated a b Ha Hb). unfold int.
    destruct a as [|x a]; simpl.
    + destruct b as [|y b]; simpl; [done|].
      by destruct (py_int (String y b)).
    + destruct (py_int (String x a)); simpl; [|done].
      destruct b as [|y b]; simpl; [done|].
      by destruct (py_int (String y b)).
Qed.

(** C8, as amended.  For an accepted specifier whose end is bounded: one
    without separator resolves to start = end, hence start ≤ end; one of
    the form [a-b] resolves to the bounds as written (start 1 for an empty
    [a], otherwise [int(a)]; end [int(b)]), with no check that they are
    ordered. *)
Theorem C8_bounds_as_written (s : string) (start end_ : Z) :
  parse_test_case_index (Some s) = Ok (start, Some end_) →
  (contains dash s = false → start = end_ ∧ (start ≤ end_)%Z) ∧
  (contains dash s = true →
     ∃ a b, s = (a ++ "-" ++ b)%string ∧
       contains dash a = false ∧ contains dash b = false ∧
       (if decide (a = EmptyString) then start = 1 else py_int a = Some start) ∧
       b ≠ EmptyString ∧ py_int b = Some end_).
Proof.
  intros Hp. split; intros Hs.
  - rewrite (parse_unseparated s Hs) in Hp. unfold int in Hp.
    destruct (py_int s); simpl in Hp; [|done].
    injection Hp as -> ->. split; [done|lia].
  - destruct (contains_decompose dash s Hs) as (a & b & -> & Ha).
    destruct (contains dash b) eqn:Hb.
    + exfalso. rewrite parse_too_many in Hp; [done|].
      pose proof (split_length dash (a ++ String dash b)%string) as Hl.
      rewrite split_at_first in Hl by done. simpl in Hl.
      rewrite split_length in Hl.
      destruct (count dash b) eqn:Hn; [|lia].
      apply contains_count in Hn. congruence.
    + exists a, b. split_and!; try done.
      all: rewrite (parse_separated a b Ha Hb) in Hp; unfold int in Hp.
      * destruct a as [|x a]; simpl in *.
        -- destruct b; simpl in Hp; [done|].
           destruct (py_int _); simpl in Hp; congruence.
        -- destruct (py_int (String x a)); simpl in Hp; [|done].
           destruct b; simpl in Hp; [done|].
           destruct (py_int _); simpl in Hp; congruence.
      * intros ->. destruct a; simpl in Hp; [done|].
        by destruct (py_int _).
      * destruct a as [|x a]; simpl in Hp.
        -- destruct b; simpl in Hp; [done|].
           destruct (py_int _); simpl in Hp; congruence.
        -- destruct (py_int (String x a)); simpl in Hp; [|done].
           destruct b; simpl in Hp; [done|].
           destruct (py_int _); simpl in Hp; congruence.
Qed.

End RangeClaims.

Lemma C1_range_parser_witness :
  PyStr.contains dash "5" = false ∧ PyStr.contains dash "10" = false ∧
  parse_test_case_index (H:=Reference.runtime) None = Ok (1, None) ∧
  parse_test_case_index (H:=Reference.runtime) (Some "5") = Ok (5, Some 5) ∧
  parse_test_case_index (H:=Reference.runtime) (Some "5-10") = Ok (5, Some 10).
Proof.
  split; [reflexivity|]. split; [reflexivity|].
  exact (C1_range_parser (H:=Reference.runtime) "5" "10" eq_refl eq_refl).
Defined.

Example range_open_start :
  parse_test_case_index (H:=Reference.runtime) (Some "-10") = Ok (1, Some 10).
Proof. reflexivity. Qed.

Example range_open_end :
  parse_test_case_index (H:=Reference.runtime) (Some "5-") = Ok (5, None).
Proof. reflexivity. Qed.

Example range_single :
  parse_test_case_index (H:=Reference.runtime) (Some "7") = Ok (7, Some 7).
Proof. reflexivity. Qed.

Example range_not_numeric :
  parse_test_case_index (H:=Reference.runtime) (Some "5-x") = Err (ValueError_int "x").
Proof. reflexivity. Qed.

(** C8 as stated fails: ["10-5"] is accepted with a bounded end and resolves
    to start 10, end 5. *)
Lemma C8_counterexample :
  parse_test_case_index (H:=Reference.runtime) (Some "10-5") = Ok (10, Some 5) ∧
  ¬ (10 ≤ 5)%Z.
Proof. split; [reflexivity|lia]. Qed.

Lemma C8_bounds_as_written_witness :
  parse_test_case_index (H:=Reference.runtime) (Some "3-8") = Ok (3, Some 8) ∧
  PyStr.contains dash "3-8" = true ∧
  ∃ a b, "3-8" = (a ++ "-" ++ b)%string ∧
    PyStr.contains dash a = false ∧ PyStr.contains dash b = false ∧
    (if decide (a = EmptyString) then 3 = 1 else Reference.int_of_str a = Some 3) ∧
    b ≠ EmptyString ∧ Reference.int_of_str b = Some 8.
Proof.
  split; [reflexivity|]. split; [reflexivity|].
  exact (proj2 (C8_bounds_as_written (H:=Reference.runtime) "3-8" 3 8 eq_refl)
           eq_refl).
Defined.

(** ** What each constructing block does, exactly *)

Section BlockRuns.

Context `{Runtime}.

Lemma make_local_procmon_run tc ph d w :
  make_local_procmon tc ph d w =
    match tc, ph with
    | Some _, None =>
        let k := ProcessMonitorLocal "boofuzz-crash-bin" None None d 1 in
        (Returns (Some {| kind := k; options := ∅ |}),
         add_events [New_ProcessMonitorLocal k] w)
    | _, _ => (Returns None, w)
    end.
Proof. by destruct tc, ph. Qed.

Lemma assemble_fuzz_loggers_run td tu csv w :
  assemble_fuzz_loggers td tu csv w =
    let sinks := if td then [FuzzLoggerText]
                 else if tu then [FuzzLoggerCurses] else [] in
    let built := if td then [New_FuzzLoggerText]
                 else if tu then [New_FuzzLoggerCurses] else [] in
    match csv with
    | None => (Returns sinks, add_events built w)
    | Some _ =>
        match os_open "boofuzz.csv" "wb" with
        | Some f =>
            (Returns (sinks ++ [FuzzLoggerCsv f]),
             add_events
               (built ++ [Open_file "boofuzz.csv" "wb"; New_FuzzLoggerCsv f]) w)
        | None =>
            (Raises (OSError_open "boofuzz.csv"),
             add_events (built ++ [Open_file "boofuzz.csv" "wb"]) w)
        end
    end.
Proof.
  unfold assemble_fuzz_loggers.
  destruct td; [|destruct tu]; destruct csv; run_monad;
    try destruct (os_open _ _); unfold add_events; simpl;
    rewrite <- ?app_assoc, ?app_nil_r; try reflexivity; by destruct w.
Qed.

Lemma attach_monitors_run lp ph port kw w :
  attach_monitors lp ph port kw w =
    match ph, lp with
    | Some host, _ =>
        (Returns [{| kind := ProcessMonitor host port; options := kw |}],
         add_events [New_ProcessMonitor host port; Call_set_options kw] w)
    | None, Some m =>
        (Returns [set_options kw m], add_events [Call_set_options kw] w)
    | None, None => (Returns [], w)
    end.
Proof.
  unfold attach_monitors.
  destruct ph as [host|], lp as [m|]; simpl; run_monad;
    unfold set_options, add_events; simpl;
    rewrite <- ?app_assoc, ?(right_id_L ∅ (∪)); reflexivity.
Qed.

End BlockRuns.

(** ** Events of a whole run *)

Section RunEvents.

Context `{Runtime}.
Variable platform_system : string.

Lemma select_debugger_trace qemu qemu_path w :
  trace (select_debugger platform_system qemu qemu_path w).2 = trace w.
Proof.
  destruct (select_debugger_emits platform_system (λ _, False) qemu qemu_path w)
    as (evs & Ht & Hq).
  destruct evs as [|e evs]; [by rewrite app_nil_r in Ht|].
  by apply Forall_cons in Hq as [[] _].
Qed.

Lemma fuzz_new_events a w :
  let w' := (fuzz platform_system a w).2 in
  trace w' = trace w ++ new_events w w' ∧
  Forall (event_of_run a) (new_events w w').
Proof.
  simpl. destruct (fuzz_emits platform_system a w) as (evs & Ht & Hq).
  unfold new_events. by rewrite Ht, drop_app_length.
Qed.

End RunEvents.

Section BackendClaims.

Context `{Runtime}.

(** C3.  With the QEMU flag set on Windows the callback prints the
    user-facing error and exits with code 1, and that is all it does:
    nothing is constructed or opened and [QEMU_PATH] is not looked at. *)
Theorem C3_qemu_on_windows (a : fuzz_args) (w : world) :
  qemu a = true →
  fuzz "Windows" a w = (Exits 1, printed msg_qemu_windows w) ∧
  new_events w (fuzz "Windows" a w).2 = [] ∧
  QEMU_PATH (fuzz "Windows" a w).2 = QEMU_PATH w.
Proof.
  intros Hq.
  assert (fuzz "Windows" a w = (Exits 1, printed msg_qemu_windows w)) as ->.
  { unfold fuzz, select_debugger. by rewrite Hq. }
  split_and!; [done| |done].
  unfold new_events. simpl. by rewrite drop_all.
Qed.

(** C9.  With the QEMU flag unset the Simple backend is selected whatever
    the platform and the override: the selection leaves the world as it
    was, the run is the same on every platform, it never exits, prints
    nothing and leaves [QEMU_PATH] alone. *)
Theorem C9_simple_backend (platform_system : string) (a : fuzz_args) (w : world) :
  qemu a = false →
  select_debugger platform_system (qemu a) (qemu_path a) w
    = (Returns DebuggerThreadSimple, w) ∧
  (∀ other_platform, fuzz other_platform a w = fuzz platform_system a w) ∧
  (∀ code, (fuzz platform_system a w).1 ≠ Exits code) ∧
  stderr (fuzz platform_system a w).2 = stderr w ∧
  QEMU_PATH (fuzz platform_system a w).2 = QEMU_PATH w ∧
  (∀ f w', fuzz platform_system a w = (Returns f, w') →
     debugger f = DebuggerThreadSimple).
Proof.
  intros Hq.
  assert (∀ p, select_debugger p (qemu a) (qemu_path a) w
               = (Returns DebuggerThreadSimple, w)) as Hsel.
  { intros p. unfold select_debugger. by rewrite Hq. }
  pose proof (fuzz_after_select platform_system a w) as Hrest.
  rewrite Hsel in Hrest. destruct Hrest as ([evs Hw] & Hc & Hd).
  split_and!; try done.
  - intros p. unfold fuzz. by rewrite !run_bind, !Hsel.
  - by rewrite Hw.
  - by rewrite Hw.
Qed.

End BackendClaims.

Lemma C3_qemu_on_windows_witness :
  qemu Examples.with_qemu = true ∧
  fuzz (H:=Reference.runtime) "Windows" Examples.with_qemu Examples.with_tracer =
    (Exits 1, {| QEMU_PATH := Some "/usr/bin/afl-qemu-trace";
                 stderr := [msg_qemu_windows]; trace := [] |}).
Proof.
  split; [reflexivity|].
  exact (proj1 (C3_qemu_on_windows (H:=Reference.runtime) Examples.with_qemu
                  Examples.with_tracer eq_refl)).
Defined.

Lemma C9_simple_backend_witness :
  qemu Examples.without_qemu = false ∧
  select_debugger "Windows" (qemu Examples.without_qemu)
      (qemu_path Examples.without_qemu) Examples.fresh
    = (Returns DebuggerThreadSimple, Examples.fresh).
Proof.
  split; [reflexivity|].
  exact (proj1 (C9_simple_backend (H:=Reference.runtime) "Windows"
                  Examples.without_qemu Examples.fresh eq_refl)).
Defined.

Section ToolPathClaim.

Context `{Runtime}.

(** C4, as amended.  With the QEMU flag set, no override and no tracer
    resolved, the callback prints an error and exits with code 1 (off
    Windows the error is the one about afl-qemu-trace).  With the flag set
    and an override given on a platform other than Windows, the override
    is stored in [QEMU_PATH] and is still there when the callback ends;
    a non-empty override selects the QEMU backend. *)
Theorem C4_tool_path (platform_system : string) (a : fuzz_args) (w : world) :
  qemu a = true →
  (qemu_path a = None → truthy_opt_str (QEMU_PATH w) = false →
     ∃ line, fuzz platform_system a w = (Exits 1, printed line w) ∧
       (platform_system ≠ "Windows" → line = msg_qemu_not_found)) ∧
  (∀ path, qemu_path a = Some path → platform_system ≠ "Windows" →
     QEMU_PATH (fuzz platform_system a w).2 = Some path ∧
     (PyStr.truthy path = true →
        select_debugger platform_system (qemu a) (qemu_path a) w
          = (Returns DebuggerThreadQemu,
             {| QEMU_PATH := Some path; stderr := stderr w;
                trace := trace w |}))).
Proof.
  intros Hq. pose proof (fuzz_after_select platform_system a w) as Hrest.
  unfold select_debugger in *. rewrite Hq in *.
  destruct (String.eqb platform_system "Windows") eqn:Hp.
  - apply String.eqb_eq in Hp as ->. split.
    + intros _ _. exists msg_qemu_windows. split; [exact Hrest|done].
    + by intros path _ [].
  - split.
    + intros Hpath Hw. rewrite Hpath in Hrest. run_monad.
      revert Hrest. run_monad. rewrite Hw. simpl. intros Hrest.
      by exists msg_qemu_not_found.
    + intros path Hpath _. rewrite Hpath in *. revert Hrest. run_monad.
      destruct path as [|c path]; simpl.
      * intros ->. by split.
      * intros ([evs ->] & _). by split.
Qed.

End ToolPathClaim.

(** C4 as stated fails on Windows: the override is given, the flag is set,
    and [QEMU_PATH] is not changed. *)
Lemma C4_counterexample :
  qemu Examples.with_qemu_path = true ∧
  qemu_path Examples.with_qemu_path = Some "/opt/afl-qemu-trace" ∧
  QEMU_PATH
    (fuzz (H:=Reference.runtime) "Windows" Examples.with_qemu_path Examples.fresh).2
    ≠ Some "/opt/afl-qemu-trace".
Proof. by split_and!. Qed.

Lemma C4_tool_path_witness :
  qemu Examples.with_qemu = true ∧
  qemu_path Examples.with_qemu = None ∧
  truthy_opt_str (QEMU_PATH Examples.fresh) = false ∧
  (∃ line, fuzz (H:=Reference.runtime) "Linux" Examples.with_qemu Examples.fresh
             = (Exits 1, printed line Examples.fresh) ∧
           ("Linux" ≠ "Windows" → line = msg_qemu_not_found)) ∧
  qemu Examples.with_qemu_path = true ∧
  QEMU_PATH
    (fuzz (H:=Reference.runtime) "Linux" Examples.with_qemu_path Examples.fresh).2
    = Some "/opt/afl-qemu-trace".
Proof.
  split; [reflexivity|]. split; [reflexivity|]. split; [reflexivity|].
  split.
  - exact (proj1 (C4_tool_path (H:=Reference.runtime) "Linux" Examples.with_qemu
                    Examples.fresh eq_refl) eq_refl eq_refl).
  - split; [reflexivity|].
    refine (proj1 (proj2 (C4_tool_path (H:=Reference.runtime) "Linux"
                            Examples.with_qemu_path Examples.fresh eq_refl)
                     "/opt/afl-qemu-trace" eq_refl _)).
    discriminate.
Defined.

Section SessionClaims.

Context `{Runtime}.
Variable platform_system : string.

(** C10.  A specifier with two or more separators splits into more than
    two parts, the two-variable unpacking raises, and the run builds no
    session: the callback does not return and no session is constructed. *)
Theorem C10_too_many_separators (a : fuzz_args) (s : string) (w : world) :
  test_case_index a = Some s →
  (2 ≤ PyStr.count dash s)%nat →
  (2 < length (PyStr.split dash s))%nat ∧
  parse_test_case_index (Some s) = Err ValueError_too_many_values ∧
  returned (fuzz platform_system a w).1 = false ∧
  ∀ ses, New_Session ses ∉ new_events w (fuzz platform_system a w).2.
Proof.
  intros Hs Hn. pose proof (parse_too_many s Hn) as Hp. split_and!.
  - rewrite PyStrFacts.split_length. lia.
  - exact Hp.
  - destruct (fuzz platform_system a w) as [[f| |] w'] eqn:E; [|done..].
    apply fuzz_Returns_inv in E
      as (_ & _ & _ & _ & _ & _ & _ & _ & _ & _ & E & _).
    congruence.
  - intros ses Hin.
    destruct (fuzz_new_events platform_system a w) as [_ Hq].
    rewrite Forall_forall in Hq. apply Hq in Hin. simpl in Hin.
    congruence.
Qed.

(** C2.  In a run that builds the session, the monitor list handed to it
    is non-empty exactly when a launch command or a remote monitor host
    was given; it then holds exactly one handle, remote when a host was
    given and local otherwise, carrying the resolved options; with neither
    it is empty. *)
Theorem C2_monitor_list (a : fuzz_args) (w w' : world) (f : frame) :
  fuzz platform_system a w = (Returns f, w') →
  sessions.monitors (sessions.target (session f)) = monitors f ∧
  (monitors f ≠ [] ↔ is_Some (target_cmd a) ∨ is_Some (procmon_host a)) ∧
  monitors f =
    match procmon_host a, target_cmd a with
    | Some host, _ =>
        [{| kind := ProcessMonitor host (procmon_port a);
            options := procmon_options f |}]
    | None, Some _ =>
        [{| kind := ProcessMonitorLocal "boofuzz-crash-bin" None None
                      (debugger f) 1;
            options := procmon_options f |}]
    | None, None => []
    end.
Proof.
  intros (w1 & w2 & w3 & w4 & _ & E2 & _ & _ & E5 & _ & _ & Hm & _)%fuzz_Returns_inv.
  rewrite make_local_procmon_run in E2. rewrite attach_monitors_run in E5.
  split; [done|].
  destruct (procmon_host a) as [host|], (target_cmd a) as [cmd|];
    simpl in E2; injection E2 as E2 _; try rewrite <- E2 in E5;
    injection E5 as E5 _; rewrite <- E5; unfold set_options; simpl;
    rewrite ?(right_id_L ∅ (∪)).
  all: split; [|done].
  1-3: split; [intros _; eauto|done].
  split; [done|]. intros [[? [=]]|[? [=]]].
Qed.

End SessionClaims.

Lemma C10_too_many_separators_witness :
  test_case_index Examples.two_separators = Some "1-5-9" ∧
  (2 ≤ PyStr.count dash "1-5-9")%nat ∧
  (fuzz (H:=Reference.runtime) "Linux" Examples.two_separators Examples.fresh).1
    = Raises ValueError_too_many_values ∧
  parse_test_case_index (H:=Reference.runtime) (Some "1-5-9")
    = Err ValueError_too_many_values ∧
  returned
    (fuzz (H:=Reference.runtime) "Linux" Examples.two_separators Examples.fresh).1
    = false.
Proof.
  split; [reflexivity|]. split; [simpl; lia|]. split; [reflexivity|].
  assert (2 ≤ PyStr.count dash "1-5-9")%nat as Hn by (simpl; lia).
  destruct (C10_too_many_separators (H:=Reference.runtime) "Linux"
              Examples.two_separators "1-5-9" Examples.fresh eq_refl Hn)
    as (_ & Hp & Hr & _).
  exact (conj Hp Hr).
Defined.

Lemma C2_monitor_list_witness :
  ∃ f w',
    fuzz (H:=Reference.runtime) "Linux" Examples.remote_monitor Examples.fresh
      = (Returns f, w') ∧
    monitors f =
      [{| kind := ProcessMonitor "10.0.0.5" 26002;
          options := procmon_options f |}].
Proof.
  destruct (fuzz (H:=Reference.runtime) "Linux" Examples.remote_monitor
              Examples.fresh) as [o w'] eqn:E.
  pose proof E as E'. vm_compute in E. injection E as <- <-.
  eexists _, _. split; [reflexivity|].
  exact (proj2 (proj2 (C2_monitor_list (H:=Reference.runtime) "Linux"
                         Examples.remote_monitor Examples.fresh _ _ E'))).
Defined.

Example local_monitor_run :
  ∃ f w',
    fuzz (H:=Reference.runtime) "Linux" Examples.local_monitor Examples.fresh
      = (Returns f, w') ∧
    kind <$> monitors f =
      [ProcessMonitorLocal "boofuzz-crash-bin" None None DebuggerThreadSimple 1] ∧
    trace w' =
      [New_ProcessMonitorLocal
         (ProcessMonitorLocal "boofuzz-crash-bin" None None DebuggerThreadSimple 1);
       Call_set_options (procmon_options f);
       New_TCPSocketConnection "127.0.0.1" 9999;
       New_Session (session f); Set_ctx_obj (session f);
       Register_resultcallback (Call_fuzz None None false)].
Proof. eexists _, _. split; [vm_compute; reflexivity|]. by split. Qed.

Example plain_run :
  ∃ f w',
    fuzz (H:=Reference.runtime) "Linux" Examples.plain Examples.fresh
      = (Returns f, w') ∧
    monitors f = [] ∧ fuzz_loggers f = [] ∧ procmon_options f = ∅ ∧
    (start f, end_ f) = (1, None) ∧ debugger f = DebuggerThreadSimple.
Proof. eexists _, _. split; [vm_compute; reflexivity|]. by split_and!. Qed.

Section SinkClaims.

Context `{Runtime}.
Variable platform_system : string.

Lemma new_events_of_trace w w' evs :
  trace w' = trace w ++ evs → new_events w w' = evs.
Proof. intros Ht. unfold new_events. by rewrite Ht, drop_app_length. Qed.

(** The events of a returning run, around those of the logger block. *)
Lemma fuzz_Returns_loggers a w f w' :
  fuzz platform_system a w = (Returns f, w') →
  ∃ w2 w3 before after,
    assemble_fuzz_loggers (text_dump a) (tui a) (csv_out a) w2
      = (Returns (fuzz_loggers f), w3) ∧
    new_events w w' = before ++ new_events w2 w3 ++ after.
Proof.
  intros (w1 & w2 & w3 & w4 & E1 & E2 & E3 & _ & E5 & _ & _ & _ & _ & _ & _
          & host & port & _ & _ & ->)%fuzz_Returns_inv.
  pose proof (select_debugger_trace platform_system (qemu a) (qemu_path a) w) as H1.
  rewrite E1 in H1. simpl in H1.
  destruct (make_local_procmon_construction (target_cmd a) (procmon_host a)
              (debugger f) w1) as [[e2 H2] _].
  rewrite E2 in H2. simpl in H2.
  destruct (assemble_fuzz_loggers_construction (text_dump a) (tui a)
              (csv_out a) w2) as [[e3 H3] _].
  rewrite E3 in H3. simpl in H3.
  destruct (attach_monitors_construction (local_procmon f) (procmon_host a)
              (procmon_port a) (procmon_options f) w3) as [[e4 H4] _].
  rewrite E5 in H4. simpl in H4.
  exists w2, w3, e2. eexists. split; [exact E3|].
  rewrite (new_events_of_trace w2 w3 e3) by (by rewrite H3).
  apply new_events_of_trace. simpl. rewrite H4, H3, H2. simpl.
  rewrite H1, <- !app_assoc. reflexivity.
Qed.

(** C5.  In a run that builds the session, the sink list has a TextDump
    sink exactly when text-dump is enabled, and a CursesTUI sink exactly
    when TUI is enabled and text-dump is not; so with both requested there
    is a TextDump sink and no CursesTUI sink, and with both off neither. *)
Theorem C5_text_dump_over_tui (a : fuzz_args) (w w' : world) (f : frame) :
  fuzz platform_system a w = (Returns f, w') →
  sessions.fuzz_loggers (session f) = fuzz_loggers f ∧
  (FuzzLoggerText ∈ fuzz_loggers f ↔ text_dump a = true) ∧
  (FuzzLoggerCurses ∈ fuzz_loggers f ↔ text_dump a = false ∧ tui a = true).
Proof.
  intros (w1 & w2 & w3 & w4 & _ & _ & E3 & _ & _ & _ & _ & _ & Hl & _)%fuzz_Returns_inv.
  split; [done|].
  rewrite assemble_fuzz_loggers_run in E3.
  destruct (text_dump a), (tui a), (csv_out a); simpl in E3;
    try destruct (os_open _ _); try done;
    apply (f_equal fst) in E3; simpl in E3; injection E3 as E3;
    rewrite <- E3; split; split;
    rewrite ?elem_of_cons, ?elem_of_nil; intuition congruence.
Qed.

(** C6.  Whatever path [--csv-out] names, the logger block opens the file
    [boofuzz.csv] in mode [wb] and appends a CSV sink bound to the handle
    it got; without [--csv-out] it opens nothing and appends no CSV sink.
    In a run that builds the session the sink list and the events of the
    run say the same. *)
Theorem C6_csv_fixed_name (a : fuzz_args) (w : world) :
  let sinks := if text_dump a then [FuzzLoggerText]
               else if tui a then [FuzzLoggerCurses] else [] in
  let built := if text_dump a then [New_FuzzLoggerText]
               else if tui a then [New_FuzzLoggerCurses] else [] in
  assemble_fuzz_loggers (text_dump a) (tui a) (csv_out a) w =
    match csv_out a with
    | None => (Returns sinks, add_events built w)
    | Some _ =>
        match os_open "boofuzz.csv" "wb" with
        | Some f =>
            (Returns (sinks ++ [FuzzLoggerCsv f]),
             add_events
               (built ++ [Open_file "boofuzz.csv" "wb"; New_FuzzLoggerCsv f]) w)
        | None =>
            (Raises (OSError_open "boofuzz.csv"),
             add_events (built ++ [Open_file "boofuzz.csv" "wb"]) w)
        end
    end ∧
  ∀ f w', fuzz platform_system a w = (Returns f, w') →
    sessions.fuzz_loggers (session f) = fuzz_loggers f ∧
    match csv_out a with
    | Some _ =>
        ∃ h, os_open "boofuzz.csv" "wb" = Some h ∧
          fuzz_loggers f = sinks ++ [FuzzLoggerCsv h] ∧
          Open_file "boofuzz.csv" "wb" ∈ new_events w w' ∧
          ∀ path mode, Open_file path mode ∈ new_events w w' →
            path = "boofuzz.csv" ∧ mode = "wb"
    | None =>
        fuzz_loggers f = sinks ∧
        ∀ path mode, Open_file path mode ∉ new_events w w'
    end.
Proof.
  intros sinks built. split; [apply assemble_fuzz_loggers_run|].
  intros f w' E.
  pose proof (fuzz_new_events platform_system a w) as [_ Hq].
  rewrite E in Hq. simpl in Hq. rewrite Forall_forall in Hq.
  destruct (fuzz_Returns_loggers a w f w' E) as (w2 & w3 & e2 & e4 & E3 & Hev).
  apply fuzz_Returns_inv in E
    as (_ & _ & _ & _ & _ & _ & _ & _ & _ & _ & _ & _ & Hl & _).
  split; [done|].
  rewrite assemble_fuzz_loggers_run in E3.
  destruct (csv_out a) as [path|] eqn:Ec.
  - destruct (os_open "boofuzz.csv" "wb") as [h|]; [|done].
    injection E3 as E3 <-. exists h. split_and!; [done..| |].
    + rewrite Hev, new_events_add. set_solver.
    + intros p m Hin. apply Hq in Hin. simpl in Hin. by destruct Hin as (-> & -> & _).
  - injection E3 as E3 _. split; [done|].
    intros p m Hin. apply Hq in Hin. simpl in Hin.
    rewrite Ec in Hin. by destruct Hin as (_ & _ & [? [=]]).
Qed.

End SinkClaims.

Section OptionsClaim.

Context `{Runtime}.

(** C7, as amended.  [start_commands] is set only when a launch command
    was given and then holds the one-element list of that command split by
    [shlex.split]; [startup_wait] is set exactly when the settle-wait is
    non-zero, so for every positive one and also for a negative one;
    CAPTURE sets [capture_output] to true and leaves [hide_output] unset,
    HIDE sets [hide_output] to true and leaves [capture_output] unset,
    MIRROR sets neither.  These are the options a returning run pushes
    onto its monitor. *)
Theorem C7_monitor_options (a : fuzz_args) (opts : gmap string optval) :
  build_procmon_options (target_cmd a) (target_start_wait a) (stdout a)
    = Ok opts →
  opts !! "start_commands" =
    match target_cmd a with
    | Some cmd => (λ argv, OptCommands [argv]) <$> shlex_split cmd
    | None => None
    end ∧
  (is_Some (opts !! "start_commands") ↔ is_Some (target_cmd a)) ∧
  opts !! "startup_wait" =
    (if truthy_float (target_start_wait a)
     then Some (OptFloat (target_start_wait a)) else None) ∧
  (positive_float (target_start_wait a) = true →
     opts !! "startup_wait" = Some (OptFloat (target_start_wait a))) ∧
  (stdout a = "CAPTURE" →
     opts !! "capture_output" = Some (OptBool true) ∧
     opts !! "hide_output" = None) ∧
  (stdout a = "HIDE" →
     opts !! "hide_output" = Some (OptBool true) ∧
     opts !! "capture_output" = None) ∧
  (stdout a = "MIRROR" →
     opts !! "capture_output" = None ∧ opts !! "hide_output" = None) ∧
  (∀ platform_system w f w',
     fuzz platform_system a w = (Returns f, w') →
     procmon_options f = opts ∧ ∀ m, m ∈ monitors f → options m = opts).
Proof.
  intros Hopts.
  assert (positive_float (target_start_wait a) = true →
          truthy_float (target_start_wait a) = true) as Hpos.
  { by destruct (target_start_wait a) as [| [] | |[]]. }
  split_and!.
  8: {
    intros p w f w' E. pose proof (Hinv := fuzz_Returns_inv p a w f w' E).
    destruct Hinv as (w1 & w2 & w3 & w4 & _ & E2 & _ & E4 & E5 & _).
    assert (procmon_options f = opts) as Hf by congruence.
    split; [done|]. rewrite <- Hf.
    rewrite make_local_procmon_run in E2. rewrite attach_monitors_run in E5.
    intros m Hm.
    destruct (procmon_host a), (target_cmd a); simpl in E2;
      injection E2 as E2 _; try rewrite <- E2 in E5;
      injection E5 as E5 _; rewrite <- E5 in Hm;
      rewrite ?elem_of_cons, ?elem_of_nil in Hm; try done;
      destruct Hm as [->|[]]; simpl; by rewrite ?(right_id_L ∅ (∪)). }
  all: unfold build_procmon_options in Hopts.
  all: destruct (target_cmd a) as [cmd|]; [destruct (shlex_split cmd)|];
    simpl in Hopts; try done.
  all: destruct (truthy_float (target_start_wait a)) eqn:Hw.
  all: destruct (String.eqb (stdout a) "CAPTURE") eqn:Hc;
    [apply String.eqb_eq in Hc|apply String.eqb_neq in Hc].
  all: destruct (String.eqb (stdout a) "HIDE") eqn:Hh;
    [apply String.eqb_eq in Hh|apply String.eqb_neq in Hh].
  all: try (rewrite Hc in Hh; discriminate Hh).
  all: destruct (String.eqb (stdout a) "MIRROR"); injection Hopts as <-.
  all: try rewrite Hc.
  all: try solve [repeat split; intros; simplify_map_eq; eauto; congruence].
  all: intros Hp; by apply Hpos in Hp.
Qed.

End OptionsClaim.

Lemma C5_text_dump_over_tui_witness :
  ∃ f w',
    fuzz (H:=Reference.runtime) "Linux" Examples.all_sinks Examples.fresh
      = (Returns f, w') ∧
    (FuzzLoggerText ∈ fuzz_loggers f ↔ true = true) ∧
    (FuzzLoggerCurses ∈ fuzz_loggers f ↔ true = false ∧ true = true).
Proof.
  destruct (fuzz (H:=Reference.runtime) "Linux" Examples.all_sinks
              Examples.fresh) as [o w'] eqn:E.
  pose proof E as E'. vm_compute in E. injection E as <- <-.
  eexists _, _. split; [reflexivity|].
  exact (proj2 (C5_text_dump_over_tui (H:=Reference.runtime) "Linux"
                  Examples.all_sinks Examples.fresh _ _ E')).
Defined.

Lemma C6_csv_fixed_name_witness :
  ∃ f w',
    fuzz (H:=Reference.runtime) "Linux" Examples.all_sinks Examples.fresh
      = (Returns f, w') ∧
    ∃ h, Reference.open_any "boofuzz.csv" "wb" = Some h ∧
      fuzz_loggers f = [FuzzLoggerText] ++ [FuzzLoggerCsv h] ∧
      Open_file "boofuzz.csv" "wb" ∈ new_events Examples.fresh w' ∧
      ∀ path mode, Open_file path mode ∈ new_events Examples.fresh w' →
        path = "boofuzz.csv" ∧ mode = "wb".
Proof.
  destruct (fuzz (H:=Reference.runtime) "Linux" Examples.all_sinks
              Examples.fresh) as [o w'] eqn:E.
  pose proof E as E'. vm_compute in E. injection E as <- <-.
  eexists _, _. split; [reflexivity|].
  exact (proj2 (proj2 (C6_csv_fixed_name (H:=Reference.runtime) "Linux"
                         Examples.all_sinks Examples.fresh) _ _ E')).
Defined.

Example csv_path_ignored :
  (fuzz (H:=Reference.runtime) "Linux" Examples.all_sinks Examples.fresh).2 =
    {| QEMU_PATH := None; stderr := [];
       trace := trace
         (fuzz (H:=Reference.runtime) "Linux" Examples.all_sinks Examples.fresh).2 |} ∧
  take 3
    (trace (fuzz (H:=Reference.runtime) "Linux" Examples.all_sinks Examples.fresh).2)
    = [New_FuzzLoggerText; Open_file "boofuzz.csv" "wb"; New_FuzzLoggerCsv 3].
Proof. split; reflexivity. Qed.

(** C7 as stated fails: a settle-wait of -1.0 is not positive and
    [startup_wait] is set to it. *)
Lemma C7_counterexample :
  ∃ opts,
    build_procmon_options (H:=Reference.runtime) None Examples.minus_one "MIRROR"
      = Ok opts ∧
    opts !! "startup_wait" = Some (OptFloat Examples.minus_one) ∧
    positive_float Examples.minus_one = false.
Proof. eexists. split; [reflexivity|]. by split. Qed.

Example minus_one_is_binary64 : valid_binary 53 1024 Examples.minus_one = true.
Proof. reflexivity. Qed.

Lemma C7_monitor_options_witness :
  let opts : gmap string optval :=
    <["capture_output" := OptBool true]>
      (<["start_commands" := OptCommands [["mybinary"; "--flag"]]]> ∅) in
  build_procmon_options (H:=Reference.runtime)
      (target_cmd Examples.local_monitor)
      (target_start_wait Examples.local_monitor) (stdout Examples.local_monitor)
    = Ok opts ∧
  opts !! "start_commands" = Some (OptCommands [["mybinary"; "--flag"]]) ∧
  opts !! "startup_wait" = None ∧
  opts !! "capture_output" = Some (OptBool true) ∧
  opts !! "hide_output" = None.
Proof.
  intros opts. split; [reflexivity|].
  destruct (C7_monitor_options (H:=Reference.runtime) Examples.local_monitor
              opts eq_refl) as (Hstart & _ & Hwait & _ & Hcapture & _).
  destruct (Hcapture eq_refl) as [Hc Hh].
  exact (conj Hstart (conj Hwait (conj Hc Hh))).
Defined.

(** * Further properties of the callback *)

(** ** A run in closed form *)

Section Summary.

Context `{Runtime}.
Variable platform_system : string.

Lemma select_debugger_run qemu qemu_path w :
  select_debugger platform_system qemu qemu_path w =
    if qemu then
      if String.eqb platform_system "Windows"
      then (Exits 1, printed msg_qemu_windows w)
      else
        let w1 := match qemu_path with
                  | Some p => with_QEMU_PATH (Some p) w
                  | None => w
                  end in
        if truthy_opt_str (QEMU_PATH w1)
        then (Returns DebuggerThreadQemu, w1)
        else (Exits 1, printed msg_qemu_not_found w1)
    else (Returns DebuggerThreadSimple, w).
Proof.
  unfold select_debugger. destruct qemu; [|done].
  destruct (String.eqb platform_system "Windows"); [done|].
  destruct qemu_path as [p|]; run_monad; simpl.
  - by destruct (PyStr.truthy p).
  - by destruct (truthy_opt_str (QEMU_PATH w)).
Qed.

Lemma fuzz_summary a w d w1 :
  select_debugger platform_system (qemu a) (qemu_path a) w = (Returns d, w1) →
  let early := stage_local_events a d ++ stage_text_events a ++ stage_csv_events a in
  fuzz platform_system a w =
    match csv_out a, os_open "boofuzz.csv" "wb" with
    | Some _, None => (Raises (OSError_open "boofuzz.csv"), add_events early w1)
    | _, _ =>
        match build_procmon_options (target_cmd a) (target_start_wait a) (stdout a) with
        | Err e => (Raises e, add_events early w1)
        | Ok kwargs =>
            let mid := early ++ stage_monitor_events a d kwargs in
            match parse_test_case_index (test_case_index a) with
            | Err e => (Raises e, add_events mid w1)
            | Ok (start, end_) =>
                match parse_target (target a) with
                | None => (Raises (Error_parse_target (target a)), add_events mid w1)
                | Some (host, port) =>
                    let loggers := stage_text_sinks a ++ stage_csv_sink a in
                    let ms := stage_monitors a d kwargs in
                    let ses := stage_session a ms loggers start end_ host port in
                    (Returns {| debugger := d; local_procmon := stage_local a d;
                                fuzz_loggers := loggers; procmon_options := kwargs;
                                monitors := ms;
                                max_depth := resolve_max_depth (combinatorial a);
                                start := start; end_ := end_; session := ses |},
                     add_events
                       (mid ++ [New_TCPSocketConnection host port; New_Session ses;
                                Set_ctx_obj ses;
                                Register_resultcallback (stage_callback a)]) w1)
                end
            end
        end
    end.
Proof.
  intros E early. unfold fuzz. rewrite run_bind, E.
  rewrite run_bind, make_local_procmon_run.
  assert (∀ k : option monitor → world → outcome frame * world,
    match
      match target_cmd a, procmon_host a with
      | Some _, None =>
          let c := ProcessMonitorLocal "boofuzz-crash-bin" None None d 1 in
          (Returns (Some {| kind := c; options := ∅ |}),
           add_events [New_ProcessMonitorLocal c] w1)
      | _, _ => (Returns None, w1)
      end
    with
    | (Returns lp, w2) => k lp w2
    | (Exits c, w2) => (Exits c, w2)
    | (Raises e, w2) => (Raises e, w2)
    end = k (stage_local a d) (add_events (stage_local_events a d) w1)) as ->.
  { intros k. unfold stage_local_events, stage_local.
    destruct (target_cmd a), (procmon_host a); simpl;
      by rewrite ?add_events_nil. }
  rewrite run_bind, assemble_fuzz_loggers_run. cbv zeta.
  fold (stage_text_sinks a) (stage_text_events a).
  subst early. unfold stage_csv_events, stage_csv_sink.
  destruct (csv_out a) as [path|];
    [destruct (os_open "boofuzz.csv" "wb") as [h|]|].
  2: by rewrite add_events_app.
  all: rewrite ?app_nil_r, add_events_app, run_bind.
  all: destruct (build_procmon_options _ _ _) as [kw|e]; [|reflexivity].
  all: rewrite run_lift_Ok, run_bind, attach_monitors_run.
  all: unfold stage_monitor_events, stage_monitors.
  all: destruct (procmon_host a) as [host|], (stage_local a d) as [m|];
    rewrite ?add_events_app, run_bind.
  all: destruct (parse_test_case_index _) as [[st en]|e];
    [|by rewrite ?app_nil_r, <- ?app_assoc].
  all: rewrite run_lift_Ok, run_bind.
  all: destruct (parse_target _) as [[thost tport]|];
    [|by rewrite ?app_nil_r, <- ?app_assoc].
  all: rewrite run_lift_Ok; run_monad; unfold add_events; simpl.
  all: by rewrite ?app_nil_r, <- ?app_assoc.
Qed.

End Summary.

(** ** Which runs build the session, and how the others end *)

Section Outcomes.

Context `{Runtime}.
Variable platform_system : string.

Lemma select_debugger_Returns_inv qemu qemu_path w d w1 :
  select_debugger platform_system qemu qemu_path w = (Returns d, w1) →
  trace w1 = trace w ∧ stderr w1 = stderr w ∧
  (qemu = false ∧ d = DebuggerThreadSimple ∧ w1 = w ∨
   qemu = true ∧ d = DebuggerThreadQemu ∧ platform_system ≠ "Windows" ∧
   truthy_opt_str (QEMU_PATH w1) = true ∧
   w1 = match qemu_path with
        | Some p => with_QEMU_PATH (Some p) w
        | None => w
        end).
Proof.
  rewrite select_debugger_run. destruct qemu.
  - destruct (String.eqb platform_system "Windows") eqn:Ep; [done|].
    apply String.eqb_neq in Ep. cbv zeta.
    destruct (truthy_opt_str _) eqn:Et; [|done].
    intros [= <- <-]. split_and!; try by destruct qemu_path.
    right. by split_and!.
  - intros [= <- <-]. split_and!; try done. by left.
Qed.

Lemma new_events_after evs w w1 :
  trace w1 = trace w → new_events w (add_events evs w1) = evs.
Proof.
  intros Ht. unfold new_events, add_events. simpl.
  by rewrite Ht, drop_app_length.
Qed.






(** X3.  The callback exits only with code 1, only with the QEMU flag set,
    only after printing exactly one of its two error lines, and only
    before it has constructed or opened anything; a run that does not exit
    prints nothing to stderr. *)
Theorem fuzz_exit_discipline (a : fuzz_args) (w : world) :
  match (fuzz platform_system a w).1 with
  | Exits code =>
      code = 1 ∧ qemu a = true ∧
      new_events w (fuzz platform_system a w).2 = [] ∧
      ∃ line, stderr (fuzz platform_system a w).2 = stderr w ++ [line] ∧
        (line = msg_qemu_windows ∧ platform_system = "Windows" ∨
         line = msg_qemu_not_found ∧ platform_system ≠ "Windows")
  | _ => stderr (fuzz platform_system a w).2 = stderr w
  end.
Proof.
  pose proof (fuzz_after_select platform_system a w) as Hsel.
  destruct (select_debugger platform_system (qemu a) (qemu_path a) w)
    as [[d|c|e] w1] eqn:E.
  - destruct Hsel as ([evs Hw] & Hc & _).
    apply select_debugger_Returns_inv in E as (_ & Hs & _).
    destruct (fuzz platform_system a w).1 as [f|c|e] eqn:Eo;
      [|by destruct (Hc c)|]; by rewrite Hw.
  - rewrite Hsel. simpl. rewrite select_debugger_run in E.
    destruct (qemu a); [|done].
    destruct (String.eqb platform_system "Windows") eqn:Ep.
    + apply String.eqb_eq in Ep. injection E as <- <-.
      split_and!; try done.
      * unfold new_events. simpl. by rewrite drop_all.
      * exists msg_qemu_windows. split; [done|]. by left.
    + apply String.eqb_neq in Ep. cbv zeta in E.
      destruct (truthy_opt_str _); [done|]. injection E as <- <-.
      split_and!; try done.
      * unfold new_events. destruct (qemu_path a); simpl; by rewrite drop_all.
      * exists msg_qemu_not_found. split; [by destruct (qemu_path a)|].
        by right.
  - exfalso. rewrite select_debugger_run in E.
    destruct (qemu a); [|done].
    destruct (String.eqb platform_system "Windows"); [done|].
    cbv zeta in E. by destruct (truthy_opt_str _).
Qed.

End Outcomes.



Section Effects.

Context `{Runtime}.
Variable platform_system : string.

(** X4.  With the QEMU flag set off Windows, an override path replaces
    whatever the search path gave: the run does not depend on the tracer
    resolved before, and an empty override makes the run exit with the
    not-found error even when a tracer had been resolved. *)
Theorem override_hides_search_path (a : fuzz_args) (w : world) (path : string) :
  qemu a = true → platform_system ≠ "Windows" → qemu_path a = Some path →
  (∀ resolved,
     fuzz platform_system a (with_QEMU_PATH resolved w) = fuzz platform_system a w) ∧
  (path = EmptyString →
     fuzz platform_system a w =
       (Exits 1, printed msg_qemu_not_found (with_QEMU_PATH (Some EmptyString) w))).
Proof.
  intros Hq Hp%String.eqb_neq Hpath. split.
  - intros resolved. unfold fuzz.
    by rewrite !run_bind, !select_debugger_run, Hq, Hp, Hpath.
  - intros ->. unfold fuzz.
    by rewrite !run_bind, !select_debugger_run, Hq, Hp, Hpath.
Qed.

(** A returning run, in closed form. *)
Lemma fuzz_Returns_summary a w f w' :
  fuzz platform_system a w = (Returns f, w') →
  ∃ w1 kwargs host port,
    select_debugger platform_system (qemu a) (qemu_path a) w
      = (Returns (debugger f), w1) ∧
    build_procmon_options (target_cmd a) (target_start_wait a) (stdout a)
      = Ok kwargs ∧
    parse_test_case_index (test_case_index a) = Ok (start f, end_ f) ∧
    parse_target (target a) = Some (host, port) ∧
    f = {| debugger := debugger f; local_procmon := stage_local a (debugger f);
           fuzz_loggers := stage_text_sinks a ++ stage_csv_sink a;
           procmon_options := kwargs;
           monitors := stage_monitors a (debugger f) kwargs;
           max_depth := resolve_max_depth (combinatorial a);
           start := start f; end_ := end_ f;
           session :=
             stage_session a (stage_monitors a (debugger f) kwargs)
               (stage_text_sinks a ++ stage_csv_sink a) (start f) (end_ f)
               host port |} ∧
    new_events w w' =
      (stage_local_events a (debugger f) ++ stage_text_events a ++
       stage_csv_events a ++ stage_monitor_events a (debugger f) kwargs) ++
      [New_TCPSocketConnection host port; New_Session (session f);
       Set_ctx_obj (session f); Register_resultcallback (stage_callback a)] ∧
    QEMU_PATH w' = QEMU_PATH w1.
Proof.
  intros Hrun.
  destruct (fuzz_Returns_inv platform_system a w f w' Hrun)
    as (w1 & _ & _ & _ & E1 & _).
  pose proof (fuzz_summary platform_system a w (debugger f) w1 E1) as Hsum.
  cbv zeta in Hsum. rewrite Hrun in Hsum.
  apply select_debugger_Returns_inv in E1 as E1'. destruct E1' as (Ht & _ & _).
  assert (∀ kw st en host port,
    (Returns f, w') =
      (Returns {| debugger := debugger f; local_procmon := stage_local a (debugger f);
                  fuzz_loggers := stage_text_sinks a ++ stage_csv_sink a;
                  procmon_options := kw;
                  monitors := stage_monitors a (debugger f) kw;
                  max_depth := resolve_max_depth (combinatorial a);
                  start := st; end_ := en;
                  session :=
                    stage_session a (stage_monitors a (debugger f) kw)
                      (stage_text_sinks a ++ stage_csv_sink a) st en host port |},
       add_events
         (((stage_local_events a (debugger f) ++ stage_text_events a ++
            stage_csv_events a) ++ stage_monitor_events a (debugger f) kw) ++
          [New_TCPSocketConnection host port;
           New_Session
             (stage_session a (stage_monitors a (debugger f) kw)
                (stage_text_sinks a ++ stage_csv_sink a) st en host port);
           Set_ctx_obj
             (stage_session a (stage_monitors a (debugger f) kw)
                (stage_text_sinks a ++ stage_csv_sink a) st en host port);
           Register_resultcallback (stage_callback a)]) w1) →
    build_procmon_options (target_cmd a) (target_start_wait a) (stdout a) = Ok kw →
    parse_test_case_index (test_case_index a) = Ok (st, en) →
    parse_target (target a) = Some (host, port) →
    ∃ w1 kwargs host port,
      select_debugger platform_system (qemu a) (qemu_path a) w
        = (Returns (debugger f), w1) ∧
      build_procmon_options (target_cmd a) (target_start_wait a) (stdout a)
        = Ok kwargs ∧
      parse_test_case_index (test_case_index a) = Ok (start f, end_ f) ∧
      parse_target (target a) = Some (host, port) ∧
      f = {| debugger := debugger f; local_procmon := stage_local a (debugger f);
             fuzz_loggers := stage_text_sinks a ++ stage_csv_sink a;
             procmon_options := kwargs;
             monitors := stage_monitors a (debugger f) kwargs;
             max_depth := resolve_max_depth (combinatorial a);
             start := start f; end_ := end_ f;
             session :=
               stage_session a (stage_monitors a (debugger f) kwargs)
                 (stage_text_sinks a ++ stage_csv_sink a) (start f) (end_ f)
                 host port |} ∧
      new_events w w' =
        (stage_local_events a (debugger f) ++ stage_text_events a ++
         stage_csv_events a ++ stage_monitor_events a (debugger f) kwargs) ++
        [New_TCPSocketConnection host port; New_Session (session f);
         Set_ctx_obj (session f); Register_resultcallback (stage_callback a)] ∧
      QEMU_PATH w' = QEMU_PATH w1) as Hfin.
  { intros kw st en host port [= -> ->] Hkw Hst Hhp. simpl.
    exists w1, kw, host, port. split_and!; try done.
    rewrite (new_events_after _ w w1 Ht). by rewrite <- !app_assoc. }
  destruct (csv_out a), (os_open "boofuzz.csv" "wb");
    destruct (build_procmon_options (target_cmd a) (target_start_wait a) (stdout a))
      as [kw|] eqn:Ekw; try done;
    destruct (parse_test_case_index (test_case_index a)) as [[st en]|] eqn:Est;
      try done;
    destruct (parse_target (target a)) as [[host port]|] eqn:Ehp; try done;
    by eapply Hfin.
Qed.

End Effects.

Section MoreEffects.

Context `{Runtime}.
Variable platform_system : string.

Lemma build_procmon_options_start tc wait so kw :
  build_procmon_options tc wait so = Ok kw →
  kw !! "start_commands" =
    match tc with
    | Some cmd => (λ argv, OptCommands [argv]) <$> shlex_split cmd
    | None => None
    end.
Proof.
  unfold build_procmon_options.
  destruct tc as [cmd|]; [destruct (shlex_split cmd)|]; simpl; try done;
    destruct (truthy_float wait), (String.eqb so "CAPTURE"),
      (String.eqb so "HIDE"), (String.eqb so "MIRROR");
    intros [= <-]; by simplify_map_eq.
Qed.

(** X5.  In a run that builds the session the backend follows the flag:
    the QEMU backend is selected exactly when the flag is set, and then the
    platform is not Windows and [QEMU_PATH] holds a non-empty path when the
    callback ends; a local monitor is built with the selected backend. *)
Theorem backend_matches_flag (a : fuzz_args) (w w' : world) (f : frame) :
  fuzz platform_system a w = (Returns f, w') →
  (debugger f = DebuggerThreadQemu ↔ qemu a = true) ∧
  (qemu a = true →
     platform_system ≠ "Windows" ∧ truthy_opt_str (QEMU_PATH w') = true) ∧
  (∀ m crash name pid d level,
     m ∈ monitors f → kind m = ProcessMonitorLocal crash name pid d level →
     d = debugger f).
Proof.
  intros (w1 & kw & host & port & E1 & _ & _ & _ & Hf & _ & Hq)%fuzz_Returns_summary.
  apply select_debugger_Returns_inv in E1 as (_ & _ & Hd).
  split_and!.
  - destruct Hd as [(-> & -> & _)|(-> & -> & _)]; by split.
  - intros Hqemu. rewrite Hq.
    destruct Hd as [(Hx & _)|(_ & _ & Hp & Ht & _)]; [congruence|done].
  - intros m crash name pid d level Hm Hk.
    apply (f_equal monitors) in Hf. simpl in Hf. rewrite Hf in Hm.
    unfold stage_monitors, stage_local in Hm.
    apply list_elem_of_In in Hm.
    destruct (procmon_host a), (target_cmd a); simpl in Hm;
      intuition (subst; simpl in *; congruence).
Qed.

(** X6.  What the callback constructs and opens, it does before it
    validates what comes later: once the debugger selection passed, a local
    monitor is constructed and [boofuzz.csv] is opened for writing whatever
    the launch command, the index specifier and the target turn out to be,
    and a remote monitor is constructed and given its options whatever the
    index specifier and the target turn out to be. *)
Theorem effects_precede_validation (a : fuzz_args) (w w1 : world)
    (d : debugger_class) :
  select_debugger platform_system (qemu a) (qemu_path a) w = (Returns d, w1) →
  let evs := new_events w (fuzz platform_system a w).2 in
  (is_Some (target_cmd a) → procmon_host a = None →
     New_ProcessMonitorLocal
       (ProcessMonitorLocal "boofuzz-crash-bin" None None d 1) ∈ evs) ∧
  (is_Some (csv_out a) → Open_file "boofuzz.csv" "wb" ∈ evs) ∧
  (∀ host kwargs,
     procmon_host a = Some host →
     (is_Some (csv_out a) → is_Some (os_open "boofuzz.csv" "wb")) →
     build_procmon_options (target_cmd a) (target_start_wait a) (stdout a)
       = Ok kwargs →
     New_ProcessMonitor host (procmon_port a) ∈ evs ∧
     Call_set_options kwargs ∈ evs).
Proof.
  intros E evs. subst evs.
  rewrite (fuzz_summary platform_system a w d w1 E). cbv zeta.
  apply select_debugger_Returns_inv in E as (Ht & _ & _).
  assert (∀ (o : outcome frame) l, new_events w (o, add_events l w1).2 = l) as Hev.
  { intros o l. simpl. by apply new_events_after. }
  split_and!.
  - intros [cmd Hc] Hh.
    assert (New_ProcessMonitorLocal
              (ProcessMonitorLocal "boofuzz-crash-bin" None None d 1)
            ∈ stage_local_events a d) as Hin.
    { unfold stage_local_events, stage_local. rewrite Hc, Hh. set_solver. }
    destruct (csv_out a), (os_open "boofuzz.csv" "wb");
      try destruct (build_procmon_options _ _ _);
      try destruct (parse_test_case_index _) as [[??]|];
      try destruct (parse_target _) as [[??]|];
      rewrite Hev; set_solver.
  - intros [path Hc].
    assert (Open_file "boofuzz.csv" "wb" ∈ stage_csv_events a) as Hin.
    { unfold stage_csv_events. rewrite Hc.
      destruct (os_open "boofuzz.csv" "wb"); set_solver. }
    rewrite Hc.
    destruct (os_open "boofuzz.csv" "wb");
      try destruct (build_procmon_options _ _ _);
      try destruct (parse_test_case_index _) as [[??]|];
      try destruct (parse_target _) as [[??]|];
      rewrite Hev; set_solver.
  - intros host kw Hh Hopen Hkw. rewrite Hkw.
    assert (New_ProcessMonitor host (procmon_port a)
              ∈ stage_monitor_events a d kw ∧
            Call_set_options kw ∈ stage_monitor_events a d kw) as [Hin1 Hin2].
    { unfold stage_monitor_events. rewrite Hh. set_solver. }
    destruct (csv_out a) as [path|];
      [destruct (Hopen (ltac:(eauto))) as [h ->]|];
      destruct (parse_test_case_index _) as [[??]|];
      try destruct (parse_target _) as [[??]|];
      rewrite ?Hev; try destruct (os_open _ _); rewrite ?Hev; set_solver.
Qed.

(** X7.  A remote monitor host takes the place of the local monitor: with
    [--procmon-host] no local monitor is ever constructed, and a launch
    command given along with it is forwarded to the remote monitor as its
    [start_commands]. *)
Theorem remote_host_wins (a : fuzz_args) (w : world) (host : string) :
  procmon_host a = Some host →
  (∀ k, New_ProcessMonitorLocal k ∉ new_events w (fuzz platform_system a w).2) ∧
  (∀ f w' cmd,
     fuzz platform_system a w = (Returns f, w') → target_cmd a = Some cmd →
     ∃ argv, shlex_split cmd = Some argv ∧
       monitors f = [{| kind := ProcessMonitor host (procmon_port a);
                        options := procmon_options f |}] ∧
       procmon_options f !! "start_commands" = Some (OptCommands [argv])).
Proof.
  intros Hh. split.
  - intros k Hin.
    destruct (fuzz_new_events platform_system a w) as [_ Hq].
    rewrite Forall_forall in Hq. apply Hq in Hin. simpl in Hin.
    destruct Hin as (_ & Hn & _). congruence.
  - intros f w' cmd
      (w1 & kw & thost & tport & _ & Hkw & _ & _ & Hf & _)%fuzz_Returns_summary Hc.
    pose proof (build_procmon_options_start _ _ _ _ Hkw) as Hs.
    rewrite Hc in Hs.
    destruct (shlex_split cmd) as [argv|] eqn:Es.
    2: { unfold build_procmon_options in Hkw. by rewrite Hc, Es in Hkw. }
    exists argv. split; [done|].
    pose proof (f_equal monitors Hf) as Hm.
    pose proof (f_equal procmon_options Hf) as Ho. simpl in Hm, Ho.
    rewrite Hm, Ho. unfold stage_monitors. by rewrite Hh.
Qed.

End MoreEffects.

Section SessionEnd.

Context `{Runtime}.
Variable platform_system : string.

(** X8.  A run that returns constructs exactly one session, as the last
    thing it builds: its events end with the connection to the parsed
    target, the session, the store of that same session in [ctx.obj], and
    the registration of the result callback, and none of these four kinds
    of event occurs earlier.  The callback calls [feature_check] when the
    flag is set and otherwise [fuzz] with the test-case name, a depth of 1
    unless combinatorial mutation is on (then unbounded), and the QEMU
    flag. *)
Theorem session_built_last (a : fuzz_args) (w w' : world) (f : frame) :
  fuzz platform_system a w = (Returns f, w') →
  ∃ before host port,
    parse_target (target a) = Some (host, port) ∧
    new_events w w' =
      before ++
      [New_TCPSocketConnection host port; New_Session (session f);
       Set_ctx_obj (session f);
       Register_resultcallback
         (if feature_check a then Call_feature_check
          else Call_fuzz (test_case_name a)
                 (if combinatorial a then None else Some 1) (qemu a))] ∧
    Forall (λ e, match e with
                 | New_TCPSocketConnection _ _ | New_Session _
                 | Set_ctx_obj _ | Register_resultcallback _ => False
                 | _ => True
                 end) before.
Proof.
  intros (w1 & kw & host & port & _ & _ & _ & Ht & _ & Hev & _)%fuzz_Returns_summary.
  eexists _, host, port. split; [done|]. split; [exact Hev|].
  unfold stage_local_events, stage_text_events, stage_csv_events,
    stage_monitor_events, stage_local.
  destruct (target_cmd a), (procmon_host a), (text_dump a), (tui a),
    (csv_out a), (os_open "boofuzz.csv" "wb"); simpl;
    repeat constructor.
Qed.

(** X9.  The session of a returning run receives the scalar options
    unchanged ([--sleep-between-cases] as [sleep_time], [--keep-web] as
    [keep_web_open], [--record-passes] as [fuzz_db_keep_only_n_pass_cases],
    [--web-port], [--restart-interval]), a connection to the host and port
    the target parsed to, and the resolved index range. *)
Theorem session_receives_options (a : fuzz_args) (w w' : world) (f : frame) :
  fuzz platform_system a w = (Returns f, w') →
  sessions.sleep_time (session f) = sleep_between_cases a ∧
  sessions.keep_web_open (session f) = keep_web a ∧
  sessions.fuzz_db_keep_only_n_pass_cases (session f) = record_passes a ∧
  sessions.web_port (session f) = web_port a ∧
  sessions.restart_interval (session f) = restart_interval a ∧
  (∃ host port,
     parse_target (target a) = Some (host, port) ∧
     sessions.connection (sessions.target (session f))
       = TCPSocketConnection host port) ∧
  parse_test_case_index (test_case_index a)
    = Ok (sessions.index_start (session f), sessions.index_end (session f)).
Proof.
  intros (w1 & kw & host & port & _ & _ & Hp & Ht & Hf & _)%fuzz_Returns_summary.
  apply (f_equal session) in Hf. simpl in Hf. rewrite Hf. simpl.
  split_and!; try done. by exists host, port.
Qed.

End SessionEnd.

(** ** The range parser and [str.split] *)

Section ParserMore.

Import PyStr PyStrFacts.

(** X10.  The range parser never converts a string that contains the
    separator: two implementations of [int] that agree on the strings
    without ["-"] give the same result on every specifier.  So no
    specifier can select a negative index through a sign. *)
Theorem parser_never_converts_separator (R1 R2 : Runtime)
    (idx : option string) :
  (∀ s, contains dash s = false → @py_int R1 s = @py_int R2 s) →
  @parse_test_case_index R1 idx = @parse_test_case_index R2 idx.
Proof.
  intros Hagree. destruct idx as [s|]; [|done].
  destruct (contains dash s) eqn:Hs.
  - destruct (contains_decompose dash s Hs) as (a & b & -> & Ha).
    destruct (contains dash b) eqn:Hb.
    + assert (2 ≤ count dash (a ++ String dash b)%string)%nat as Hn.
      { pose proof (split_length dash (a ++ String dash b)%string) as Hl.
        rewrite split_at_first in Hl by done. simpl in Hl.
        rewrite split_length in Hl.
        destruct (count dash b) eqn:Hc; [|lia].
        apply contains_count in Hc. congruence. }
      by rewrite (@parse_too_many R1), (@parse_too_many R2).
    + rewrite (@parse_separated R1), (@parse_separated R2) by done.
      unfold int. by rewrite (Hagree a Ha), (Hagree b Hb).
  - rewrite (@parse_unseparated R1), (@parse_unseparated R2) by done.
    unfold int. by rewrite (Hagree s Hs).
Qed.

Lemma split_cons_inv c s : ∃ part parts, split c s = part :: parts.
Proof.
  destruct s as [|x s]; simpl; [by eexists _, _|].
  destruct (Ascii.eqb x c); [by eexists _, _|].
  destruct (split c s); by eexists _, _.
Qed.

(** X11.  Splitting on a character loses nothing and leaves no separator
    behind: the parts joined by the separator give back the string, no part
    contains the separator, and a non-empty list of separator-free parts is
    what its join splits into. *)
Theorem split_join_round_trip (c : ascii) (s : string) (parts : list string) :
  join c (split c s) = s ∧
  Forall (λ part, contains c part = false) (split c s) ∧
  (parts ≠ [] → Forall (λ part, contains c part = false) parts →
   split c (join c parts) = parts).
Proof.
  split_and!.
  - induction s as [|x s IH]; [done|]. simpl.
    destruct (Ascii.eqb x c) eqn:E.
    + apply Ascii.eqb_eq in E as ->.
      destruct (split_cons_inv c s) as (p & ps & Hp).
      rewrite Hp in *. simpl in *. by rewrite IH.
    + destruct (split c s) as [|p [|p' ps]] eqn:Hp; by rewrite <- IH.
  - induction s as [|x s IH]; simpl; [by repeat constructor|].
    destruct (Ascii.eqb x c) eqn:E; [by constructor|].
    destruct (split c s) as [|p ps]; [by repeat constructor; simpl; rewrite E|].
    apply Forall_cons in IH as [Hp Hps]. constructor; [|done].
    simpl. by rewrite E.
  - intros Hne Hall. induction Hall as [|p ps Hp Hps IH]; [done|].
    destruct ps as [|p' ps]; simpl.
    + by apply split_without.
    + rewrite split_at_first by done. f_equal. by apply IH.
Qed.

End ParserMore.

(** ** The [open] command *)

Section OpenCommandFacts.

Import OpenCommand.
Variable open_test_run : string → Z → string → bool.

Lemma sleep_loop_calls n w :
  sleep_loop n w =
    {| printed_lines := printed_lines w;
       calls := calls w ++ replicate n Call_sleep |}.
Proof.
  revert w. induction n as [|n IH]; intros w.
  - destruct w. simpl. by rewrite app_nil_r.
  - simpl. rewrite IH. simpl. by rewrite <- app_assoc.
Qed.

(** X12.  [open] first configures debug logging if asked, then starts the
    viewer for the given file, port and address.  If that fails nothing is
    printed and the loop is not entered; otherwise exactly one line, naming
    that address and port, is printed, and from then on the command only
    sleeps, however long it runs. *)
Theorem open_file_serves (iterations : nat) (debug : bool) (filename : string)
    (ui_port : Z) (ui_addr : string) (w : viewer_world) :
  let started :=
    calls w ++ (if debug then [Call_basicConfig_DEBUG] else []) ++
    [Call_open_test_run filename ui_port ui_addr] in
  open_file open_test_run iterations debug filename ui_port ui_addr w =
    if open_test_run filename ui_port ui_addr then
      (Sleeping,
       {| printed_lines := printed_lines w ++ [ready_line ui_addr ui_port];
          calls := started ++ replicate iterations Call_sleep |})
    else
      (Raised_by_open_test_run,
       {| printed_lines := printed_lines w; calls := started |}).
Proof.
  unfold open_file. cbv zeta.
  destruct (open_test_run filename ui_port ui_addr).
  - rewrite sleep_loop_calls. destruct debug; unfold call, print; simpl;
      by rewrite <- ?app_assoc.
  - destruct debug; unfold call; simpl; by rewrite <- ?app_assoc.
Qed.

End OpenCommandFacts.

Example open_file_ready_line :
  OpenCommand.open_file MoreExamples.viewer_starts 3 true "run.db" 26000
    EmptyString MoreExamples.idle =
  (OpenCommand.Sleeping,
   {| OpenCommand.printed_lines :=
        ["Serving web page at http://:26000. Hit Ctrl+C to quit."];
      OpenCommand.calls :=
        [OpenCommand.Call_basicConfig_DEBUG;
         OpenCommand.Call_open_test_run "run.db" 26000 EmptyString;
         OpenCommand.Call_sleep; OpenCommand.Call_sleep;
         OpenCommand.Call_sleep] |}).
Proof. reflexivity. Qed.

(** ** Runs on concrete command lines *)

Lemma override_hides_search_path_witness :
  qemu MoreExamples.empty_override = true ∧
  "Linux" ≠ "Windows" ∧
  qemu_path MoreExamples.empty_override = Some EmptyString ∧
  fuzz (H:=Reference.runtime) "Linux" MoreExamples.empty_override
      Examples.with_tracer
    = (Exits 1,
       {| QEMU_PATH := Some EmptyString; stderr := [msg_qemu_not_found];
          trace := [] |}).
Proof.
  assert ("Linux" ≠ "Windows") as Hp by discriminate.
  split; [reflexivity|]. split; [exact Hp|]. split; [reflexivity|].
  exact (proj2 (override_hides_search_path (H:=Reference.runtime) "Linux"
                  MoreExamples.empty_override Examples.with_tracer EmptyString
                  eq_refl Hp eq_refl) eq_refl).
Defined.

Lemma backend_matches_flag_witness :
  ∃ f w',
    fuzz (H:=Reference.runtime) "Linux" MoreExamples.qemu_local
        Examples.with_tracer = (Returns f, w') ∧
    (debugger f = DebuggerThreadQemu ↔ true = true) ∧
    kind <$> monitors f =
      [ProcessMonitorLocal "boofuzz-crash-bin" None None DebuggerThreadQemu 1].
Proof.
  destruct (fuzz (H:=Reference.runtime) "Linux" MoreExamples.qemu_local
              Examples.with_tracer) as [o w'] eqn:E.
  pose proof E as E'. vm_compute in E. injection E as <- <-.
  eexists _, _. split; [reflexivity|]. split; [|reflexivity].
  exact (proj1 (backend_matches_flag (H:=Reference.runtime) "Linux"
                  MoreExamples.qemu_local Examples.with_tracer _ _ E')).
Defined.

Lemma effects_precede_validation_witness :
  (fuzz (H:=Reference.runtime) "Linux" MoreExamples.bad_target Examples.fresh).1
    = Raises (Error_parse_target "nohost") ∧
  Open_file "boofuzz.csv" "wb"
    ∈ new_events Examples.fresh
        (fuzz (H:=Reference.runtime) "Linux" MoreExamples.bad_target
           Examples.fresh).2.
Proof.
  split; [reflexivity|].
  refine (proj1 (proj2 (effects_precede_validation (H:=Reference.runtime) "Linux"
                          MoreExamples.bad_target Examples.fresh Examples.fresh
                          DebuggerThreadSimple eq_refl)) _).
  by eexists.
Defined.

Lemma remote_host_wins_witness :
  procmon_host Examples.remote_monitor = Some "10.0.0.5" ∧
  ∀ k, New_ProcessMonitorLocal k
       ∉ new_events Examples.fresh
           (fuzz (H:=Reference.runtime) "Linux" Examples.remote_monitor
              Examples.fresh).2.
Proof.
  split; [reflexivity|].
  exact (proj1 (remote_host_wins (H:=Reference.runtime) "Linux"
                  Examples.remote_monitor Examples.fresh "10.0.0.5" eq_refl)).
Defined.

Lemma session_built_last_witness :
  ∃ f w',
    fuzz (H:=Reference.runtime) "Linux" MoreExamples.qemu_local
        Examples.with_tracer = (Returns f, w') ∧
    ∃ before host port,
      Reference.parse_host_port "127.0.0.1:9999" = Some (host, port) ∧
      new_events Examples.with_tracer w' =
        before ++
        [New_TCPSocketConnection host port; New_Session (session f);
         Set_ctx_obj (session f);
         Register_resultcallback (Call_fuzz (Some "login") (Some 1) true)] ∧
      Forall (λ e, match e with
                   | New_TCPSocketConnection _ _ | New_Session _
                   | Set_ctx_obj _ | Register_resultcallback _ => False
                   | _ => True
                   end) before.
Proof.
  destruct (fuzz (H:=Reference.runtime) "Linux" MoreExamples.qemu_local
              Examples.with_tracer) as [o w'] eqn:E.
  pose proof E as E'. vm_compute in E. injection E as <- <-.
  eexists _, _. split; [reflexivity|].
  exact (session_built_last (H:=Reference.runtime) "Linux"
           MoreExamples.qemu_local Examples.with_tracer _ _ E').
Defined.

Lemma session_receives_options_witness :
  ∃ f w',
    fuzz (H:=Reference.runtime) "Linux" MoreExamples.qemu_local
        Examples.with_tracer = (Returns f, w') ∧
    sessions.fuzz_db_keep_only_n_pass_cases (session f) = 0 ∧
    sessions.web_port (session f) = 8080 ∧
    sessions.restart_interval (session f) = Some 50 ∧
    Ok (3, Some 8)
      = Ok (sessions.index_start (session f), sessions.index_end (session f)).
Proof.
  destruct (fuzz (H:=Reference.runtime) "Linux" MoreExamples.qemu_local
              Examples.with_tracer) as [o w'] eqn:E.
  pose proof E as E'. vm_compute in E. injection E as <- <-.
  eexists _, _. split; [reflexivity|].
  destruct (session_receives_options (H:=Reference.runtime) "Linux"
              MoreExamples.qemu_local Examples.with_tracer _ _ E')
    as (_ & _ & Hr & Hw & Hi & _ & Hp).
  exact (conj Hr (conj Hw (conj Hi Hp))).
Defined.

Lemma parser_never_converts_separator_witness :
  @parse_test_case_index Reference.runtime (Some "-5")
    = @parse_test_case_index MoreExamples.dash_blind (Some "-5") ∧
  @parse_test_case_index MoreExamples.dash_blind (Some "-5") = Ok (1, Some 5).
Proof.
  split; [|reflexivity].
  apply (parser_never_converts_separator Reference.runtime
           MoreExamples.dash_blind (Some "-5")).
  intros s Hs. simpl. by rewrite Hs.
Defined.

Lemma split_join_round_trip_witness :
  ["a"; EmptyString; "b"] ≠ ([] : list string) ∧
  Forall (λ part, PyStr.contains dash part = false) ["a"; EmptyString; "b"] ∧
  PyStr.split dash (join dash ["a"; EmptyString; "b"])
    = ["a"; EmptyString; "b"].
Proof.
  assert (["a"; EmptyString; "b"] ≠ ([] : list string)) as Hne by discriminate.
  assert (Forall (λ part, PyStr.contains dash part = false)
            ["a"; EmptyString; "b"]) as Hall by (by repeat constructor).
  split; [exact Hne|]. split; [exact Hall|].
  exact (proj2 (proj2 (split_join_round_trip dash "1-5-9" _)) Hne Hall).
Defined.

(** ** Nothing is constructed twice or dropped *)

Section Accounting.

Context `{Runtime}.
Variable platform_system : string.

(** X13.  A run that returns hands over exactly what it constructed: the
    session's sinks are the loggers constructed, in that order; its
    monitors are the monitors constructed (at most one); each of them had
    its options pushed exactly once; and [boofuzz.csv] was opened exactly
    once if [--csv-out] was given and no file was opened otherwise. *)
Theorem constructed_is_handed_over (a : fuzz_args) (w w' : world) (f : frame) :
  fuzz platform_system a w = (Returns f, w') →
  let evs := new_events w w' in
  omap sink_built evs = sessions.fuzz_loggers (session f) ∧
  omap monitor_built evs
    = kind <$> sessions.monitors (sessions.target (session f)) ∧
  omap options_pushed evs
    = options <$> sessions.monitors (sessions.target (session f)) ∧
  (length (sessions.monitors (sessions.target (session f))) ≤ 1)%nat ∧
  omap file_opened evs
    = match csv_out a with
      | Some _ => [("boofuzz.csv", "wb")]
      | None => []
      end.
Proof.
  intros (w1 & kw & host & port & _ & _ & _ & _ & Hf & Hev & _)%fuzz_Returns_summary.
  cbv zeta. rewrite Hev. clear Hev.
  apply (f_equal session) in Hf. simpl in Hf. rewrite Hf. simpl.
  unfold stage_local_events, stage_text_events, stage_csv_events,
    stage_monitor_events, stage_monitors, stage_text_sinks, stage_csv_sink,
    stage_local.
  destruct (target_cmd a), (procmon_host a), (text_dump a), (tui a),
    (csv_out a), (os_open "boofuzz.csv" "wb"); simpl;
    rewrite ?(right_id_L ∅ (∪)); split_and!; (reflexivity || lia).
Qed.

(** X14.  The process-wide tracer path after the callback, however the run
    ends: it is the override when the QEMU flag is set off Windows and an
    override was given, and it is what it was in every other case. *)
Theorem QEMU_PATH_after_fuzz (a : fuzz_args) (w : world) :
  QEMU_PATH (fuzz platform_system a w).2 =
    if qemu a && negb (String.eqb platform_system "Windows")
    then match qemu_path a with
         | Some p => Some p
         | None => QEMU_PATH w
         end
    else QEMU_PATH w.
Proof.
  pose proof (fuzz_after_select platform_system a w) as Hsel.
  rewrite select_debugger_run in Hsel.
  destruct (qemu a); simpl.
  - destruct (String.eqb platform_system "Windows"); simpl.
    + by rewrite Hsel.
    + cbv zeta in Hsel. destruct (truthy_opt_str _).
      * destruct Hsel as ([evs ->] & _). by destruct (qemu_path a).
      * rewrite Hsel. by destruct (qemu_path a).
  - destruct Hsel as ([evs ->] & _). done.
Qed.

End Accounting.

Lemma constructed_is_handed_over_witness :
  ∃ f w',
    fuzz (H:=Reference.runtime) "Linux" Examples.all_sinks Examples.fresh
      = (Returns f, w') ∧
    omap sink_built (new_events Examples.fresh w')
      = sessions.fuzz_loggers (session f) ∧
    omap file_opened (new_events Examples.fresh w') = [("boofuzz.csv", "wb")].
Proof.
  destruct (fuzz (H:=Reference.runtime) "Linux" Examples.all_sinks
              Examples.fresh) as [o w'] eqn:E.
  pose proof E as E'. vm_compute in E. injection E as <- <-.
  eexists _, _. split; [reflexivity|].
  destruct (constructed_is_handed_over (H:=Reference.runtime) "Linux"
              Examples.all_sinks Examples.fresh _ _ E')
    as (Hs & _ & _ & _ & Ho).
  exact (conj Hs Ho).
Defined.
